(** * Oppia backend: constants loader and learner-group controllers

    A shallow embedding of [core/constants.py] and
    [core/controllers/learner_group.py], with the properties of their
    behaviour that the design document states.

    Python values are modelled as follows.
    - [str] is a [string]; indices returned by [str.find] and [str.rfind]
      are in [Z], since Python reports "not found" as [-1] and accepts
      negative indices in slices.
    - [dict] with string keys is a [gmap string V].
    - A call that may raise is a [Result]: [Ok v] or [Err e].
    - [None] is [None] of an [option]. *)

From Stdlib Require Import ZArith String Ascii.
From Stdlib.Strings Require Import Byte.
From stdpp Require Import gmap strings list.

Open Scope string_scope.
Open Scope list_scope.

(** ** Exceptions and results *)

(** The exception classes the two modules raise or let through. *)
Inductive exn : Type :=
| FileNotFoundError (filename : string)
| OSError (msg : string)
| UnicodeDecodeError
| JSONDecodeError
| KeyError (key : string)
| KeyErrorNone
| IndexError
| UnauthorizedUserException (msg : string)
| InvalidInputException (msg : string)
| PageNotFoundException
| ServiceException (msg : string).

Inductive Result (A : Type) : Type :=
| Ok (a : A)
| Err (e : exn).

Arguments Ok {A} a.
Arguments Err {A} e.

Definition is_ok {A} (r : Result A) : bool :=
  match r with Ok _ => true | Err _ => false end.

Definition result_to_option {A} (r : Result A) : option A :=
  match r with Ok a => Some a | Err _ => None end.

Definition result_map {A B} (f : A -> B) (r : Result A) : Result B :=
  match r with Ok a => Ok (f a) | Err e => Err e end.

Definition result_bind {A B} (r : Result A) (f : A -> Result B) : Result B :=
  match r with Ok a => f a | Err e => Err e end.

(** ** Python string primitives *)

Module PyStr.

Definition LF : ascii := "010"%char.

Definition is_LF (c : ascii) : bool := Ascii.eqb c LF.

(** [occurs_at sub s i]: [sub] is found in [s] at offset [i]. *)
Fixpoint occurs_at (sub s : string) (i : nat) {struct i} : bool :=
  match i with
  | O => String.prefix sub s
  | S i' => match s with
            | EmptyString => false
            | String _ s' => occurs_at sub s' i'
            end
  end.

(** [s.find(sub)], counting from offset [i]: the lowest index at which
    [sub] occurs, or [-1]. *)
Fixpoint find_from (sub s : string) (i : Z) {struct s} : Z :=
  if String.prefix sub s then i
  else match s with
       | EmptyString => (-1)%Z
       | String _ s' => find_from sub s' (i + 1)
       end.

Definition find (s sub : string) : Z := find_from sub s 0.

(** [s.rfind(sub)], counting from offset [i]: the highest index at which
    [sub] occurs, or [-1]. *)
Fixpoint rfind_from (sub s : string) (i : Z) {struct s} : Z :=
  match s with
  | EmptyString => if String.prefix sub s then i else (-1)%Z
  | String _ s' =>
      let later := rfind_from sub s' (i + 1) in
      if (0 <=? later)%Z then later
      else if String.prefix sub s then i else (-1)%Z
  end.

Definition rfind (s sub : string) : Z := rfind_from sub s 0.

(** How a slice bound is read: a negative bound counts from the end, and
    the result is clipped to [0 .. len]. *)
Definition slice_bound (len i : Z) : Z :=
  let j := if (i <? 0)%Z then (i + len)%Z else i in
  if (j <? 0)%Z then 0%Z else if (len <? j)%Z then len else j.

(** [s[a:b]]. *)
Definition slice (s : string) (a b : Z) : string :=
  let len := Z.of_nat (String.length s) in
  let lo := slice_bound len a in
  let hi := slice_bound len b in
  substring (Z.to_nat lo) (Z.to_nat (hi - lo)) s.

(** Lowering of the letters [A] to [Z] and of nothing else.  This is what
    [str.lower] does on a text of ASCII characters; on other texts
    [str.lower] follows the Unicode case tables, so the handlers take
    [str.lower] as a parameter and this function only stands for it on
    ASCII usernames. *)
Definition ascii_lower_char (c : ascii) : ascii :=
  let n := nat_of_ascii c in
  if (65 <=? n)%nat && (n <=? 90)%nat then ascii_of_nat (n + 32) else c.

Fixpoint ascii_lower (s : string) : string :=
  match s with
  | EmptyString => EmptyString
  | String c s' => String (ascii_lower_char c) (ascii_lower s')
  end.

End PyStr.

(** ** core/constants.py *)

Module Constants.

Import PyStr.

(** The opening of a line comment as the pattern ['  //.*\n'] wants it:
    two spaces and two slashes. *)
Definition comment_opening : string := "  //".

(** Does the rest of the text hold a newline?  ['.*\n'] matches exactly
    when it does, and then up to the first one, since ['.'] does not match
    a newline. *)
Fixpoint has_newline (s : string) : bool :=
  match s with
  | EmptyString => false
  | String c s' => is_LF c || has_newline s'
  end.

(** Does ['  //.*\n'] match at the start of [s]? *)
Definition comment_matches (s : string) : bool :=
  String.prefix comment_opening s && has_newline s.

(** [re.sub(r'  //.*\n', r'', text)], scanning left to right.  With
    [in_comment] set the scan is inside a match and drops characters up to
    and including the next newline; otherwise it looks for a match at the
    current offset and copies the character when there is none. *)
Fixpoint remove_comments_scan (in_comment : bool) (text : string) : string :=
  match text with
  | EmptyString => EmptyString
  | String c rest =>
      if in_comment then
        if is_LF c then remove_comments_scan false rest
        else remove_comments_scan true rest
      else if comment_matches text then remove_comments_scan true rest
      else String c (remove_comments_scan false rest)
  end.

Definition remove_comments (text : string) : string :=
  remove_comments_scan false text.

Definition brace_newline : string := String "{" (String LF EmptyString).

(** The text handed to [json.loads]:
    [text_without_comments[json_start:json_end]]. *)
Definition json_source (ts_file_contents : string) : string :=
  let text_without_comments := remove_comments ts_file_contents in
  let json_start := find text_without_comments brace_newline in
  let json_end := (rfind text_without_comments "}" + 1)%Z in
  slice text_without_comments json_start json_end.

(** What the Python runtime provides to this module: the file system
    behind [io.open(...).read()]; [pkgutil.get_data], which returns the
    bytes of the resource, returns [None] when the package cannot be
    located or its loader has no [get_data], and otherwise ends in the
    loader's [get_data], which raises ([FileNotFoundError] or another
    [OSError]) for a resource it cannot read; and [bytes.decode('utf-8')],
    which has no result on ill-formed input. *)
Record Runtime : Type := {
  io_open_read : string -> Result string;
  pkgutil_get_data : string -> string -> Result (option (list byte));
  utf8_decode : list byte -> option string
}.

(** [a.endswith('/')]. *)
Definition ends_with_sep (a : string) : bool :=
  String.eqb (slice a (-1) (Z.of_nat (String.length a))) "/".

(** [os.path.join(a, b)] (posixpath). *)
Definition os_path_join (a b : string) : string :=
  if String.prefix "/" b then b
  else if String.eqb a EmptyString || ends_with_sep a then a +:+ b
  else a +:+ "/" +:+ b.

Definition bytes_decode (rt : Runtime) (data : list byte) : Result string :=
  match utf8_decode rt data with
  | Some s => Ok s
  | None => Err UnicodeDecodeError
  end.

Definition get_package_file_contents
    (rt : Runtime) (package filepath : string) : Result string :=
  match io_open_read rt (os_path_join package filepath) with
  | Ok contents => Ok contents
  | Err (FileNotFoundError f) =>
      match pkgutil_get_data rt package filepath with
      | Ok None => Err (FileNotFoundError f)
      | Ok (Some file_data) => bytes_decode rt file_data
      | Err e' => Err e'
      end
  | Err e => Err e
  end.

Section Loader.

(** [json.loads], with the type of the values it builds. *)
Context {JSON : Type} (json_loads : string -> Result JSON).

Definition parse_json_from_ts (ts_file_contents : string) : Result JSON :=
  json_loads (json_source ts_file_contents).

End Loader.

(** *** class Constants(dict) *)

Section ConstantsClass.

(** [V] is the type of the stored values.  [class_attribute name] tells
    whether ordinary attribute lookup already finds [name] on the object:
    the methods and special attributes that [dict] and the class itself
    define.  Python calls [__getattr__] only when that lookup fails, and
    calls [__setattr__] on every attribute assignment. *)
Context {V : Type} (class_attribute : string -> bool).

(** What reading an attribute gives: a stored value, or the attribute of
    that name the class provides (a bound method, for instance). *)
Inductive attribute : Type :=
| Item (v : V)
| ClassAttribute (name : string).


(** [self[name]]. *)
Definition getitem (self : gmap string V) (name : string) : Result V :=
  match self !! name with
  | Some v => Ok v
  | None => Err (KeyError name)
  end.

(** [self[name] = value]. *)
Definition setitem (self : gmap string V) (name : string) (value : V)
  : gmap string V :=
  <[name := value]> self.

Definition Constants__setattr__
    (self : gmap string V) (name : string) (value : V) : gmap string V :=
  setitem self name value.

Definition Constants__getattr__
    (self : gmap string V) (name : string) : Result V :=
  getitem self name.

(** [self.name] and [getattr(self, name)]. *)
Definition getattr (self : gmap string V) (name : string)
  : Result attribute :=
  if class_attribute name then Ok (ClassAttribute name)
  else result_map Item (Constants__getattr__ self name).

(** [self.name = value] and [setattr(self, name, value)]. *)
Definition setattr (self : gmap string V) (name : string) (value : V)
  : gmap string V :=
  Constants__setattr__ self name value.

End ConstantsClass.

Arguments Item {V} v.
Arguments ClassAttribute {V} name.

(** The names [dir(dict)] lists in CPython 3.8, with those every class
    with a [__dict__] adds and the class's own [__getattr__]. *)
Definition dict_attribute_names : list string :=
  [ "__class__"; "__contains__"; "__delattr__"; "__delitem__"; "__dict__";
    "__dir__"; "__doc__"; "__eq__"; "__format__"; "__ge__"; "__getattr__";
    "__getattribute__"; "__getitem__"; "__gt__"; "__hash__"; "__init__";
    "__init_subclass__"; "__iter__"; "__le__"; "__len__"; "__lt__";
    "__module__"; "__ne__"; "__new__"; "__reduce__"; "__reduce_ex__";
    "__repr__"; "__reversed__"; "__setattr__"; "__setitem__"; "__sizeof__";
    "__str__"; "__subclasshook__"; "__weakref__";
    "clear"; "copy"; "fromkeys"; "get"; "items"; "keys"; "pop"; "popitem";
    "setdefault"; "update"; "values" ].

Definition cpython_class_attribute (name : string) : bool :=
  bool_decide (name ∈ dict_attribute_names).

(** The two module-level tables, as far as loading them goes. *)
Definition load_constants {JSON} (json_loads : string -> Result JSON)
    (rt : Runtime) : Result JSON :=
  result_bind (get_package_file_contents rt "assets" "constants.ts")
              (parse_json_from_ts json_loads).

Definition load_release_constants {JSON} (json_loads : string -> Result JSON)
    (rt : Runtime) : Result JSON :=
  result_bind (get_package_file_contents rt "assets" "release_constants.json")
              json_loads.

End Constants.

(** ** core/controllers/learner_group.py *)

(** A user id as the services exchange it: [get_multi_user_ids_from_usernames]
    gives [None] for a username that belongs to no user, and
    [get_usernames] gives [None] for an id that has no username. *)
Abbreviation user_id := (option string) (only parsing).

Module LearnerGroup.
Record t : Type := {
  group_id : string;
  title : option string;
  description : option string;
  facilitator_user_ids : list user_id;
  student_user_ids : list user_id;
  invited_student_user_ids : list user_id;
  subtopic_page_ids : list string;
  story_ids : list string
}.
End LearnerGroup.

Module UserSettings.
Record t : Type := {
  user_id : string;
  username : string;
  profile_picture_data_url : string
}.
End UserSettings.

(** [self.normalized_payload] under [LEARNER_GROUP_SCHEMA]: every key is
    present, with the schema's default when the request left it out. *)
Module Payload.
Record t : Type := {
  group_title : option string;
  group_description : option string;
  student_usernames : list string;
  invited_student_usernames : list string;
  subtopic_page_ids : list string;
  story_ids : list string
}.

Definition with_student_usernames (l : list string) (p : t) : t :=
  {| group_title := group_title p;
     group_description := group_description p;
     student_usernames := l;
     invited_student_usernames := invited_student_usernames p;
     subtopic_page_ids := subtopic_page_ids p;
     story_ids := story_ids p |}.
End Payload.

(** The handler object as the methods read it: [self.user_id] and
    [self.username] of the logged-in caller. *)
Module Handler.
Record t : Type := {
  user_id : user_id;
  username : string
}.
End Handler.

(** The dict [post], [put] and the facilitator view pass to [render_json]. *)
Module GroupDict.
Record t : Type := {
  id : string;
  title : option string;
  description : option string;
  facilitator_usernames : list (option string);
  student_usernames : list (option string);
  invited_student_usernames : list (option string);
  subtopic_page_ids : list string;
  story_ids : list string
}.
End GroupDict.

(** The dict [LearnerGroupSearchStudentHandler.get] renders. *)
Module SearchDict.
Record t : Type := {
  username : string;
  profile_picture_data_url : string;
  error : string
}.
End SearchDict.

(** *** The service layer as the handlers see it *)

(** Calls that read: fetchers and checks of [user_services],
    [learner_group_fetchers], [learner_group_services], [story_fetchers] and
    [subtopic_page_services]. *)
Inductive Query : Type :=
| get_multi_user_ids_from_usernames (usernames : list string)
| get_usernames (user_ids : list user_id)
| get_user_settings_from_username (username : string)
| get_new_learner_group_id
| get_learner_group_by_id (group_id : string)
| is_user_facilitator (uid : user_id) (group_id : string)
| can_user_be_invited (uid : string) (username : string) (group_id : string)
| can_multi_students_share_progress (user_ids : list user_id) (group_id : string)
| get_multi_users_progress_in_stories
    (user_ids : list user_id) (story_ids : list string)
| get_multi_users_subtopic_pages_progress
    (user_ids : list user_id) (subtopic_page_ids : list string).

(** Calls of [learner_group_services] that write. *)
Inductive Command : Type :=
| create_learner_group
    (group_id : string) (title description : option string)
    (facilitator_user_ids invited_student_ids : list user_id)
    (subtopic_page_ids story_ids : list string)
| update_learner_group
    (group_id : string) (title description : option string)
    (facilitator_user_ids student_ids invited_student_ids : list user_id)
    (subtopic_page_ids story_ids : list string)
| remove_learner_group (group_id : string).

Inductive Event : Type :=
| Asked (q : Query)
| Executed (c : Command).

Definition is_mutation (ev : Event) : bool :=
  match ev with Asked _ => false | Executed _ => true end.

(** The services that report learners' progress or the permission to see
    it. *)
Definition is_progress_service (ev : Event) : bool :=
  match ev with
  | Asked (can_multi_students_share_progress _ _)
  | Asked (get_multi_users_progress_in_stories _ _)
  | Asked (get_multi_users_subtopic_pages_progress _ _) => true
  | _ => false
  end.

Section Handlers.

(** The entries of the two progress reports; the handlers only pass them
    on. *)
Context {StoryProgress SubtopicPageProgress : Type}.

Definition query_ret (q : Query) : Type :=
  match q with
  | get_multi_user_ids_from_usernames _ => list user_id
  | get_usernames _ => list (option string)
  | get_user_settings_from_username _ => option UserSettings.t
  | get_new_learner_group_id => string
  | get_learner_group_by_id _ => option LearnerGroup.t
  | is_user_facilitator _ _ => bool
  | can_user_be_invited _ _ _ => (bool * string)%type
  | can_multi_students_share_progress _ _ => list bool
  | get_multi_users_progress_in_stories _ _ =>
      gmap (option string) (list StoryProgress)
  | get_multi_users_subtopic_pages_progress _ _ =>
      gmap (option string) (list SubtopicPageProgress)
  end.

Definition command_ret (c : Command) : Type :=
  match c with
  | create_learner_group _ _ _ _ _ _ _ => LearnerGroup.t
  | update_learner_group _ _ _ _ _ _ _ _ => LearnerGroup.t
  | remove_learner_group _ => unit
  end.

(** A handler method: it ends by rendering a dict or by raising, and on
    the way calls services, going on with what they return. *)
Inductive Prog (R : Type) : Type :=
| Render (r : R)
| Raise (e : exn)
| Ask (q : Query) (k : query_ret q -> Prog R)
| Exec (c : Command) (k : command_ret c -> Prog R).

Arguments Render {R} r.
Arguments Raise {R} e.
Arguments Ask {R} q k.
Arguments Exec {R} c k.

Fixpoint prog_bind {A B} (f : A -> Prog B) (p : Prog A) : Prog B :=
  match p with
  | Render a => f a
  | Raise e => Raise e
  | Ask q k => Ask q (fun x => prog_bind f (k x))
  | Exec c k => Exec c (fun x => prog_bind f (k x))
  end.

#[global] Instance prog_mret : MRet Prog := fun _ a => Render a.
#[global] Instance prog_mbind : MBind Prog := fun _ _ f p => prog_bind f p.

Definition ask_service (q : Query) : Prog (query_ret q) := Ask q Render.
Definition exec_service (c : Command) : Prog (command_ret c) := Exec c Render.

(** A computation of the handler itself that may raise. *)
Definition lift_result {A} (r : Result A) : Prog A :=
  match r with Ok a => Render a | Err e => Raise e end.

(** The service layer over a datastore [W]: a read answers or raises and
    leaves the store as it is; a write answers or raises and gives the
    store it leaves behind. *)
Record Services (W : Type) : Type := {
  ask : forall q : Query, W -> Result (query_ret q);
  exec : forall c : Command, W -> Result (command_ret c) * W
}.

Arguments ask {W} _ q _.
Arguments exec {W} _ c _.

(** The outcome of a handler method on a store: what it rendered or
    raised, the store afterwards, and the service calls in the order they
    were made. *)
Record Outcome (W R : Type) : Type := {
  result : Result R;
  store : W;
  calls : list Event
}.

Arguments result {W R} _.
Arguments store {W R} _.
Arguments calls {W R} _.

Definition called {W R} (ev : Event) (o : Outcome W R) : Outcome W R :=
  {| result := result o; store := store o; calls := ev :: calls o |}.

Fixpoint run {W R} (svc : Services W) (p : Prog R) (w : W) : Outcome W R :=
  match p with
  | Render r => {| result := Ok r; store := w; calls := [] |}
  | Raise e => {| result := Err e; store := w; calls := [] |}
  | Ask q k =>
      match ask svc q w with
      | Ok x => called (Asked q) (run svc (k x) w)
      | Err e => {| result := Err e; store := w; calls := [Asked q] |}
      end
  | Exec c k =>
      match exec svc c w with
      | (Ok x, w') => called (Executed c) (run svc (k x) w')
      | (Err e, w') =>
          {| result := Err e; store := w'; calls := [Executed c] |}
      end
  end.

(** *** Handlers *)

(** The dict literal that ends [post] and [put]; its entries are
    evaluated in the order written. *)
Definition learner_group_dict (learner_group : LearnerGroup.t)
  : Prog GroupDict.t :=
  facilitator_usernames ← ask_service
    (get_usernames (LearnerGroup.facilitator_user_ids learner_group));
  student_usernames ← ask_service
    (get_usernames (LearnerGroup.student_user_ids learner_group));
  invited_student_usernames ← ask_service
    (get_usernames (LearnerGroup.invited_student_user_ids learner_group));
  mret {| GroupDict.id := LearnerGroup.group_id learner_group;
          GroupDict.title := LearnerGroup.title learner_group;
          GroupDict.description := LearnerGroup.description learner_group;
          GroupDict.facilitator_usernames := facilitator_usernames;
          GroupDict.student_usernames := student_usernames;
          GroupDict.invited_student_usernames := invited_student_usernames;
          GroupDict.subtopic_page_ids :=
            LearnerGroup.subtopic_page_ids learner_group;
          GroupDict.story_ids := LearnerGroup.story_ids learner_group |}.

(** [CreateLearnerGroupHandler.post] *)
Definition CreateLearnerGroupHandler_post
    (self : Handler.t) (normalized_payload : Payload.t) : Prog GroupDict.t :=
  let title := Payload.group_title normalized_payload in
  let description := Payload.group_description normalized_payload in
  let invited_student_usernames :=
    Payload.invited_student_usernames normalized_payload in
  let subtopic_page_ids := Payload.subtopic_page_ids normalized_payload in
  let story_ids := Payload.story_ids normalized_payload in
  invited_student_ids ← ask_service
    (get_multi_user_ids_from_usernames invited_student_usernames);
  new_learner_grp_id ← ask_service get_new_learner_group_id;
  learner_group ← exec_service
    (create_learner_group
       new_learner_grp_id title description [Handler.user_id self]
       invited_student_ids subtopic_page_ids story_ids);
  learner_group_dict learner_group.

(** [LearnerGroupHandler.put] *)
Definition LearnerGroupHandler_put
    (self : Handler.t) (normalized_payload : Payload.t)
    (learner_group_id : string) : Prog GroupDict.t :=
  let title := Payload.group_title normalized_payload in
  let description := Payload.group_description normalized_payload in
  let student_usernames := Payload.student_usernames normalized_payload in
  let invited_student_usernames :=
    Payload.invited_student_usernames normalized_payload in
  let subtopic_page_ids := Payload.subtopic_page_ids normalized_payload in
  let story_ids := Payload.story_ids normalized_payload in
  is_valid_request ← ask_service
    (is_user_facilitator (Handler.user_id self) learner_group_id);
  if negb is_valid_request then
    Raise (UnauthorizedUserException
             "You are not a facilitator of this learner group.")
  else
    student_ids ← ask_service
      (get_multi_user_ids_from_usernames student_usernames);
    invited_student_ids ← ask_service
      (get_multi_user_ids_from_usernames invited_student_usernames);
    learner_group ← exec_service
      (update_learner_group
         learner_group_id title description [Handler.user_id self]
         student_ids invited_student_ids subtopic_page_ids story_ids);
    learner_group_dict learner_group.

(** [LearnerGroupHandler.delete]; it renders [{'success': True}]. *)
Definition LearnerGroupHandler_delete
    (self : Handler.t) (learner_group_id : string) : Prog bool :=
  is_valid_request ← ask_service
    (is_user_facilitator (Handler.user_id self) learner_group_id);
  if negb is_valid_request then
    Raise (UnauthorizedUserException
             ("You do not have the rights to delete this learner group "
              +:+ "as you are not its facilitator."))
  else
    _ ← exec_service (remove_learner_group learner_group_id);
    mret true.

(** One entry of ['students_progress']. *)
Record StudentProgress : Type := {
  username : string;
  progress_sharing_is_turned_on : bool;
  stories_progress : list StoryProgress;
  subtopic_pages_progress : list SubtopicPageProgress
}.

(** [d[key]] on a dict keyed by user ids. *)
Definition dict_getitem {A} (d : gmap (option string) A) (key : user_id)
  : Result A :=
  match d !! key with
  | Some a => Ok a
  | None =>
      Err (match key with Some k => KeyError k | None => KeyErrorNone end)
  end.

(** [l[i]] for [i >= 0]. *)
Definition list_getitem {A} (l : list A) (i : nat) : Result A :=
  match l !! i with
  | Some a => Ok a
  | None => Err IndexError
  end.

(** The first loop of the progress handler, from index [i] on:
    the ids whose permission is on, appended to
    [students_with_progress_sharing_on]. *)
Fixpoint collect_sharing_on
    (progress_sharing_permissions : list bool) (i : nat)
    (student_user_ids : list user_id)
    (students_with_progress_sharing_on : list user_id)
  : Result (list user_id) :=
  match student_user_ids with
  | [] => Ok students_with_progress_sharing_on
  | uid :: rest =>
      result_bind (list_getitem progress_sharing_permissions i)
        (fun permitted =>
           collect_sharing_on progress_sharing_permissions (S i) rest
             (if permitted
              then students_with_progress_sharing_on ++ [uid]
              else students_with_progress_sharing_on))
  end.

(** The body of the second loop for index [i] and id [uid]: the entry
    appended to [all_students_progress]. *)
Definition student_progress_entry
    (student_usernames : list string)
    (progress_sharing_permissions : list bool)
    (stories_progresses : gmap (option string) (list StoryProgress))
    (subtopic_pages_progresses :
       gmap (option string) (list SubtopicPageProgress))
    (i : nat) (uid : user_id) : Result StudentProgress :=
  result_bind (list_getitem student_usernames i) (fun name =>
  result_bind (list_getitem progress_sharing_permissions i) (fun flag =>
    let student_progress :=
      {| username := name;
         progress_sharing_is_turned_on := flag;
         stories_progress := [];
         subtopic_pages_progress := [] |} in
    if negb flag then Ok student_progress
    else
      result_bind (dict_getitem stories_progresses uid) (fun stories =>
      result_bind (dict_getitem subtopic_pages_progresses uid) (fun pages =>
        Ok {| username := username student_progress;
              progress_sharing_is_turned_on :=
                progress_sharing_is_turned_on student_progress;
              stories_progress := stories;
              subtopic_pages_progress := pages |})))).

(** The second loop, from index [i] on. *)
Fixpoint collect_progress
    (student_usernames : list string)
    (progress_sharing_permissions : list bool)
    (stories_progresses : gmap (option string) (list StoryProgress))
    (subtopic_pages_progresses :
       gmap (option string) (list SubtopicPageProgress))
    (i : nat) (student_user_ids : list user_id)
    (all_students_progress : list StudentProgress)
  : Result (list StudentProgress) :=
  match student_user_ids with
  | [] => Ok all_students_progress
  | uid :: rest =>
      result_bind
        (student_progress_entry student_usernames
           progress_sharing_permissions stories_progresses
           subtopic_pages_progresses i uid)
        (fun student_progress =>
           collect_progress student_usernames progress_sharing_permissions
             stories_progresses subtopic_pages_progresses (S i) rest
             (all_students_progress ++ [student_progress]))
  end.

(** [LearnerGroupStudentProgressHandler.get]; it renders
    [{'students_progress': all_students_progress}]. *)
Definition LearnerGroupStudentProgressHandler_get
    (self : Handler.t) (student_usernames : list string)
    (learner_group_id : string) : Prog (list StudentProgress) :=
  student_user_ids ← ask_service
    (get_multi_user_ids_from_usernames student_usernames);
  learner_group ← ask_service (get_learner_group_by_id learner_group_id);
  match learner_group with
  | None => Raise (InvalidInputException "No such learner group exists.")
  | Some learner_group =>
      progress_sharing_permissions ← ask_service
        (can_multi_students_share_progress
           student_user_ids learner_group_id);
      students_with_progress_sharing_on ← lift_result
        (collect_sharing_on progress_sharing_permissions 0
           student_user_ids []);
      let story_ids := LearnerGroup.story_ids learner_group in
      stories_progresses ← ask_service
        (get_multi_users_progress_in_stories
           students_with_progress_sharing_on story_ids);
      let subtopic_page_ids :=
        LearnerGroup.subtopic_page_ids learner_group in
      subtopic_pages_progresses ← ask_service
        (get_multi_users_subtopic_pages_progress
           students_with_progress_sharing_on subtopic_page_ids);
      lift_result
        (collect_progress student_usernames progress_sharing_permissions
           stories_progresses subtopic_pages_progresses 0
           student_user_ids [])
  end.

(** [LearnerGroupSearchStudentHandler.get].  [str_lower] is [str.lower]
    of the runtime, which is aware of Unicode and so is not computed
    here. *)
Definition LearnerGroupSearchStudentHandler_get
    (str_lower : string -> string)
    (self : Handler.t) (username learner_group_id : string)
  : Prog SearchDict.t :=
  user_settings ← ask_service (get_user_settings_from_username username);
  match user_settings with
  | None =>
      mret {| SearchDict.username := username;
              SearchDict.profile_picture_data_url := EmptyString;
              SearchDict.error :=
                "User with username " +:+ username +:+ " does not exist." |}
  | Some user_settings =>
      if String.eqb (str_lower (Handler.username self))
                    (str_lower username)
      then
        mret {| SearchDict.username := UserSettings.username user_settings;
                SearchDict.profile_picture_data_url := EmptyString;
                SearchDict.error :=
                  "You cannot invite yourself to the group" |}
      else
        '(valid_invitation, error) ← ask_service
          (can_user_be_invited
             (UserSettings.user_id user_settings)
             (UserSettings.username user_settings) learner_group_id);
        if negb valid_invitation then
          mret {| SearchDict.username :=
                    UserSettings.username user_settings;
                  SearchDict.profile_picture_data_url := EmptyString;
                  SearchDict.error := error |}
        else
          mret {| SearchDict.username :=
                    UserSettings.username user_settings;
                  SearchDict.profile_picture_data_url :=
                    UserSettings.profile_picture_data_url user_settings;
                  SearchDict.error := EmptyString |}
  end.

End Handlers.

Arguments Prog : clear implicits.
Arguments Render {StoryProgress SubtopicPageProgress R} r.
Arguments Raise {StoryProgress SubtopicPageProgress R} e.
Arguments Ask {StoryProgress SubtopicPageProgress R} q k.
Arguments Exec {StoryProgress SubtopicPageProgress R} c k.
Arguments Services : clear implicits.
Arguments ask {StoryProgress SubtopicPageProgress W} _ q _.
Arguments exec {StoryProgress SubtopicPageProgress W} _ c _.
Arguments Outcome : clear implicits.
Arguments result {W R} _.
Arguments store {W R} _.
Arguments calls {W R} _.
Arguments StudentProgress : clear implicits.
Arguments username {StoryProgress SubtopicPageProgress} _.
Arguments progress_sharing_is_turned_on {StoryProgress SubtopicPageProgress} _.
Arguments stories_progress {StoryProgress SubtopicPageProgress} _.
Arguments subtopic_pages_progress {StoryProgress SubtopicPageProgress} _.

(** *** A reference service layer *)

Module Reference.

(** Modelled from the spec: the datastore behind the services, which are
    not part of the controller module.  Users with their settings, the
    learner groups by id, the (student, group) pairs whose progress
    sharing is on, and the stored progress entries by user and story or
    subtopic page id. *)
Record Store : Type := {
  users : list UserSettings.t;
  groups : gmap string LearnerGroup.t;
  sharing_on : list (user_id * string);
  story_progress : list (user_id * string * string);
  subtopic_progress : list (user_id * string * string)
}.

(** Modelled from the spec: the store with its groups replaced. *)
Definition with_groups (g : gmap string LearnerGroup.t) (w : Store) : Store :=
  {| users := users w; groups := g; sharing_on := sharing_on w;
     story_progress := story_progress w;
     subtopic_progress := subtopic_progress w |}.

(** Modelled from the spec: the user lookup of [user_services], by
    username without regard to the case of ASCII letters. *)
Definition settings_of_username (w : Store) (name : string)
  : option UserSettings.t :=
  List.find
    (fun u => String.eqb (PyStr.ascii_lower (UserSettings.username u))
                         (PyStr.ascii_lower name))
    (users w).

(** Modelled from the spec: the username of a user id, if a user has
    it. *)
Definition username_of_id (w : Store) (uid : user_id) : option string :=
  match uid with
  | None => None
  | Some i =>
      UserSettings.username <$>
        List.find (fun u => String.eqb (UserSettings.user_id u) i) (users w)
  end.

(** Modelled from the spec: the stored progress of one user in the
    stories or subtopic pages asked for. *)
Definition progress_of
    (entries : list (user_id * string * string)) (ids : list string)
    (uid : user_id) : list string :=
  omap (fun e => match e with
                 | (u, i, summary) =>
                     if bool_decide (u = uid) && bool_decide (i ∈ ids)
                     then Some summary else None
                 end) entries.

(** Modelled from the spec: the progress report of the services, a dict
    with one key per user id asked for. *)
Definition progress_dict
    (entries : list (user_id * string * string)) (ids : list string)
    (uids : list user_id) : gmap (option string) (list string) :=
  list_to_map (map (fun uid => (uid, progress_of entries ids uid)) uids).

(** Modelled from the spec: the reads of the service layer.  Usernames
    resolve to ids and back through the user table; a fresh group id is
    one no group has; a caller is a facilitator of a group when the group
    lists the caller's id; a user can be invited unless already a student
    or invited; progress is reported per user for the ids asked. *)
Definition reference_ask (q : Query) (w : Store)
  : Result (@query_ret string string q) :=
  match q with
  | get_multi_user_ids_from_usernames usernames =>
      Ok (map (fun n => UserSettings.user_id <$> settings_of_username w n)
              usernames)
  | get_usernames user_ids => Ok (map (username_of_id w) user_ids)
  | get_user_settings_from_username username =>
      Ok (settings_of_username w username)
  | get_new_learner_group_id => Ok (fresh (dom (groups w)))
  | get_learner_group_by_id group_id => Ok (groups w !! group_id)
  | is_user_facilitator uid group_id =>
      Ok (match groups w !! group_id with
          | Some g => bool_decide (uid ∈ LearnerGroup.facilitator_user_ids g)
          | None => false
          end)
  | can_user_be_invited uid username group_id =>
      Ok (match groups w !! group_id with
          | None => (true, EmptyString)
          | Some g =>
              if bool_decide (Some uid ∈ LearnerGroup.student_user_ids g)
              then (false, "User with username " +:+ username
                           +:+ " is already a student.")
              else if bool_decide
                        (Some uid ∈ LearnerGroup.invited_student_user_ids g)
              then (false, "User with username " +:+ username
                           +:+ " has been already invited to join the group")
              else (true, EmptyString)
          end)
  | can_multi_students_share_progress user_ids group_id =>
      Ok (map (fun uid => bool_decide ((uid, group_id) ∈ sharing_on w))
              user_ids)
  | get_multi_users_progress_in_stories user_ids story_ids =>
      Ok (progress_dict (story_progress w) story_ids user_ids)
  | get_multi_users_subtopic_pages_progress user_ids subtopic_page_ids =>
      Ok (progress_dict (subtopic_progress w) subtopic_page_ids user_ids)
  end.

(** Modelled from the spec: the writes of the service layer.  Creation
    persists a group with the given facilitators, invited students and
    syllabus and no students yet; update is a full replace of title,
    description, membership lists and syllabus references of an existing
    group; removal is unconditional. *)
Definition reference_exec (c : Command) (w : Store)
  : Result (@command_ret c) * Store :=
  match c with
  | create_learner_group group_id title description facilitator_user_ids
      invited_student_ids subtopic_page_ids story_ids =>
      let g := {| LearnerGroup.group_id := group_id;
                  LearnerGroup.title := title;
                  LearnerGroup.description := description;
                  LearnerGroup.facilitator_user_ids := facilitator_user_ids;
                  LearnerGroup.student_user_ids := [];
                  LearnerGroup.invited_student_user_ids :=
                    invited_student_ids;
                  LearnerGroup.subtopic_page_ids := subtopic_page_ids;
                  LearnerGroup.story_ids := story_ids |} in
      (Ok g, with_groups (<[group_id := g]> (groups w)) w)
  | update_learner_group group_id title description facilitator_user_ids
      student_ids invited_student_ids subtopic_page_ids story_ids =>
      match groups w !! group_id with
      | None =>
          (Err (ServiceException
                  "The learner group with the given group id does not exist."),
           w)
      | Some _ =>
          let g := {| LearnerGroup.group_id := group_id;
                      LearnerGroup.title := title;
                      LearnerGroup.description := description;
                      LearnerGroup.facilitator_user_ids :=
                        facilitator_user_ids;
                      LearnerGroup.student_user_ids := student_ids;
                      LearnerGroup.invited_student_user_ids :=
                        invited_student_ids;
                      LearnerGroup.subtopic_page_ids := subtopic_page_ids;
                      LearnerGroup.story_ids := story_ids |} in
          (Ok g, with_groups (<[group_id := g]> (groups w)) w)
      end
  | remove_learner_group group_id =>
      (Ok tt, with_groups (delete group_id (groups w)) w)
  end.

(** Modelled from the spec: the service layer made of the reads and
    writes above. *)
Definition services : Services string string Store :=
  {| ask := reference_ask; exec := reference_exec |}.

(** A small datastore: four users and one group that [uid_carol] and
    [uid_dave] facilitate, with [uid_alice] enrolled and sharing progress
    and [uid_bob] enrolled and not sharing. *)
Definition alice : UserSettings.t :=
  {| UserSettings.user_id := "uid_alice"; UserSettings.username := "alice";
     UserSettings.profile_picture_data_url := "data:alice" |}.
Definition bob : UserSettings.t :=
  {| UserSettings.user_id := "uid_bob"; UserSettings.username := "bob";
     UserSettings.profile_picture_data_url := "data:bob" |}.
Definition carol : UserSettings.t :=
  {| UserSettings.user_id := "uid_carol"; UserSettings.username := "carol";
     UserSettings.profile_picture_data_url := "data:carol" |}.
Definition dave : UserSettings.t :=
  {| UserSettings.user_id := "uid_dave"; UserSettings.username := "dave";
     UserSettings.profile_picture_data_url := "data:dave" |}.

Definition group1 : LearnerGroup.t :=
  {| LearnerGroup.group_id := "group1";
     LearnerGroup.title := Some "Algebra";
     LearnerGroup.description := Some "Weekly algebra";
     LearnerGroup.facilitator_user_ids := [Some "uid_carol"; Some "uid_dave"];
     LearnerGroup.student_user_ids := [Some "uid_alice"; Some "uid_bob"];
     LearnerGroup.invited_student_user_ids := [];
     LearnerGroup.subtopic_page_ids := ["topic1:1"];
     LearnerGroup.story_ids := ["story1"] |}.

Definition store0 : Store :=
  {| users := [alice; bob; carol; dave];
     groups := {[ "group1" := group1 ]};
     sharing_on := [(Some "uid_alice", "group1")];
     story_progress :=
       [(Some "uid_alice", "story1", "alice: 2 of 5 chapters");
        (Some "uid_bob", "story1", "bob: 4 of 5 chapters")];
     subtopic_progress :=
       [(Some "uid_alice", "topic1:1", "alice: mastery 0.4");
        (Some "uid_bob", "topic1:1", "bob: mastery 0.9")] |}.

Definition as_carol : Handler.t :=
  {| Handler.user_id := Some "uid_carol"; Handler.username := "carol" |}.
Definition as_alice : Handler.t :=
  {| Handler.user_id := Some "uid_alice"; Handler.username := "alice" |}.

Definition payload1 : Payload.t :=
  {| Payload.group_title := Some "Geometry";
     Payload.group_description := Some "Shapes";
     Payload.student_usernames := ["alice"];
     Payload.invited_student_usernames := ["bob"];
     Payload.subtopic_page_ids := ["topic2:1"];
     Payload.story_ids := ["story2"] |}.

End Reference.

(** * Properties *)

(** ** Vocabulary of the statements about the constants loader *)

Module ConstantsSpec.

Import PyStr Constants.

(** [i] is the lowest offset at which [sub] occurs in [s]. *)
Definition first_occurrence (sub s : string) (i : nat) : Prop :=
  occurs_at sub s i = true /\ forall j, j < i -> occurs_at sub s j = false.

(** [i] is the highest offset at which [sub] occurs in [s]. *)
Definition last_occurrence (sub s : string) (i : nat) : Prop :=
  occurs_at sub s i = true /\ forall j, i < j -> occurs_at sub s j = false.

Definition no_occurrence (sub s : string) : Prop :=
  forall j, occurs_at sub s j = false.

(** The pattern ['  //.*\n'] matches at the start of [s]: two spaces, two
    slashes, a run without newline, a newline. *)
Definition comment_at_start (s : string) : Prop :=
  exists body rest,
    has_newline body = false /\
    s = comment_opening +:+ body +:+ String LF rest.

(** [strips_comments text out]: [out] is [text] with every match of the
    pattern removed, the matches taken leftmost first and not
    overlapping, which is what [re.sub] with an empty replacement does. *)
Inductive strips_comments : string -> string -> Prop :=
| strips_end : strips_comments EmptyString EmptyString
| strips_comment body rest out :
    has_newline body = false ->
    strips_comments rest out ->
    strips_comments (comment_opening +:+ body +:+ String LF rest) out
| strips_char c rest out :
    ~ comment_at_start (String c rest) ->
    strips_comments rest out ->
    strips_comments (String c rest) (String c out).

(** The claim on [parse_json_from_ts] read for every text: the text given
    to the JSON parser runs from the first brace-and-newline of the
    stripped text to its last closing brace. *)
Definition extracts_between_braces (text : string) : Prop :=
  exists s e,
    first_occurrence brace_newline (remove_comments text) s /\
    last_occurrence "}" (remove_comments text) e /\
    json_source text = substring s (e + 1 - s) (remove_comments text).


Definition raises_file_not_found {A} (r : Result A) : Prop :=
  exists f, r = Err (FileNotFoundError f).




(** A runtime with one file on disk and one packaged resource, in which
    no other package can be located. *)
Definition sample_runtime : Runtime :=
  {| io_open_read := fun path =>
       if String.eqb path "assets/release_constants.json"
       then Ok "{}" else Err (FileNotFoundError path);
     pkgutil_get_data := fun package filepath =>
       if String.eqb package "assets" && String.eqb filepath "constants.ts"
       then Ok (Some [x7b; x0a; x7d]) else Ok None;
     utf8_decode := fun data =>
       if forallb (fun b => Nat.ltb (Byte.to_nat b) 128) data
       then Some (string_of_list_byte data) else None |}.



(** A parser that accepts everything and gives back its input, to see
    which text [parse_json_from_ts] hands over. *)
Definition echo_loads (s : string) : Result string := Ok s.

Definition line (s : string) : string := s +:+ String LF EmptyString.

(** A small asset in the layout of [assets/constants.ts]. *)
Definition sample_ts : string :=
  line "// Shared constants." +:+
  line "export default {" +:+
  line "  // Longest username." +:+
  line "  MAX: 30,  // characters" +:+
  line "  MIN: 1" +:+
  line "} as const;".

End ConstantsSpec.

(** ** Vocabulary of the statements about the handlers *)

Section HandlerSpec.

Context {StoryProgress SubtopicPageProgress W : Type}.
Context (svc : Services StoryProgress SubtopicPageProgress W).

(** The claim on creation read for a request: the usernames rendered as
    ['student_usernames'] are the submitted ones taken to ids and back,
    as a set. *)
Definition create_roundtrips
    (w : W) (self : Handler.t) (payload : Payload.t) : Prop :=
  forall r,
    result (run svc (CreateLearnerGroupHandler_post self payload) w) = Ok r ->
    exists ids names,
      ask svc (get_multi_user_ids_from_usernames
                 (Payload.student_usernames payload)) w = Ok ids /\
      ask svc (get_usernames ids)
          (store (run svc (CreateLearnerGroupHandler_post self payload) w))
      = Ok names /\
      forall x, x ∈ GroupDict.student_usernames r <-> x ∈ names.

(** The claim on a missing group read for a request: the progress
    handler answers a group id that resolves to no group with the
    not-found error of the handler classes. *)
Definition missing_group_is_not_found
    (w : W) (self : Handler.t) (student_usernames : list string)
    (learner_group_id : string) : Prop :=
  ask svc (get_learner_group_by_id learner_group_id) w = Ok None ->
  result (run svc (LearnerGroupStudentProgressHandler_get
                     self student_usernames learner_group_id) w)
  = Err PageNotFoundException.

(** The claim on the student search read for a request: an empty error
    field is rendered only for an invitation the service reports valid. *)
Definition only_valid_gives_empty_error
    (str_lower : string -> string)
    (w : W) (self : Handler.t) (username learner_group_id : string) : Prop :=
  forall r,
    result (run svc (LearnerGroupSearchStudentHandler_get
                       str_lower self username learner_group_id) w)
    = Ok r ->
    SearchDict.error r = EmptyString ->
    exists us error,
      ask svc (get_user_settings_from_username username) w = Ok (Some us) /\
      ask svc (can_user_be_invited (UserSettings.user_id us)
                 (UserSettings.username us) learner_group_id) w
      = Ok (true, error).

(** The ids at the positions where the permission is on, in order. *)
Fixpoint students_sharing (permissions : list bool) (ids : list user_id)
  : list user_id :=
  match permissions, ids with
  | permitted :: permissions', uid :: ids' =>
      if permitted then uid :: students_sharing permissions' ids'
      else students_sharing permissions' ids'
  | _, _ => []
  end.

(** What the services answer to the progress handler. *)
Record ProgressAnswers : Type := {
  resolved_ids : list user_id;
  group : LearnerGroup.t;
  permissions : list bool;
  stories : gmap (option string) (list StoryProgress);
  pages : gmap (option string) (list SubtopicPageProgress)
}.

Definition progress_services_answer
    (w : W) (student_usernames : list string) (learner_group_id : string)
    (a : ProgressAnswers) : Prop :=
  ask svc (get_multi_user_ids_from_usernames student_usernames) w
  = Ok (resolved_ids a) /\
  ask svc (get_learner_group_by_id learner_group_id) w
  = Ok (Some (group a)) /\
  ask svc (can_multi_students_share_progress
             (resolved_ids a) learner_group_id) w
  = Ok (permissions a) /\
  ask svc (get_multi_users_progress_in_stories
             (students_sharing (permissions a) (resolved_ids a))
             (LearnerGroup.story_ids (group a))) w
  = Ok (stories a) /\
  ask svc (get_multi_users_subtopic_pages_progress
             (students_sharing (permissions a) (resolved_ids a))
             (LearnerGroup.subtopic_page_ids (group a))) w
  = Ok (pages a).

(** The answers are aligned with the request: one id and one permission
    per username, and both progress dicts have an entry for every id
    whose permission is on. *)
Definition aligned (student_usernames : list string) (a : ProgressAnswers)
  : Prop :=
  length (resolved_ids a) = length student_usernames /\
  length (permissions a) = length student_usernames /\
  forall i uid,
    resolved_ids a !! i = Some uid ->
    permissions a !! i = Some true ->
    is_Some (stories a !! uid) /\ is_Some (pages a !! uid).

End HandlerSpec.

Arguments ProgressAnswers : clear implicits.

(** What the reference services answer to the progress handler for
    [alice] and [bob] in [group1]. *)
Definition reference_answers : ProgressAnswers string string :=
  {| resolved_ids := [Some "uid_alice"; Some "uid_bob"];
     group := Reference.group1;
     permissions := [true; false];
     stories :=
       Reference.progress_dict (Reference.story_progress Reference.store0)
         ["story1"] [Some "uid_alice"];
     pages :=
       Reference.progress_dict (Reference.subtopic_progress Reference.store0)
         ["topic1:1"] [Some "uid_alice"] |}.

(** ** Vocabulary of further statements *)

(** [s[n:]] for [n >= 0]. *)
Fixpoint string_drop (n : nat) (s : string) : string :=
  match n, s with
  | O, _ => s
  | S n', EmptyString => EmptyString
  | S n', String _ s' => string_drop n' s'
  end.

Section ReadsOnly.

Context {StoryProgress SubtopicPageProgress : Type}.

(** A handler method that calls no write of the service layer, whatever
    the reads answer. *)
Inductive reads_only {R}
  : Prog StoryProgress SubtopicPageProgress R -> Prop :=
| reads_only_render r : reads_only (Render r)
| reads_only_raise e : reads_only (Raise e)
| reads_only_ask q k : (forall x, reads_only (k x)) -> reads_only (Ask q k).

(** The exception of [d[key]] for a key that [d] lacks. *)
Definition key_error (key : user_id) : exn :=
  match key with Some k => KeyError k | None => KeyErrorNone end.

End ReadsOnly.

(** A service layer whose invitation check reports every invitation
    invalid and gives no message, and that answers everything else as the
    reference one. *)
Definition silent_ask (q : Query) (w : Reference.Store)
  : Result (@query_ret string string q) :=
  match q as q0 return Result (@query_ret string string q0) with
  | can_user_be_invited _ _ _ => Ok (false, EmptyString)
  | q0 => Reference.reference_ask q0 w
  end.

Definition silent_services : Services string string Reference.Store :=
  {| ask := silent_ask; exec := Reference.reference_exec |}.

(** A service layer that answers the permission question with an empty
    list, whatever is asked, and everything else as the reference one. *)
Definition forgetful_ask (q : Query) (w : Reference.Store)
  : Result (@query_ret string string q) :=
  match q as q0 return Result (@query_ret string string q0) with
  | can_multi_students_share_progress _ _ => Ok []
  | q0 => Reference.reference_ask q0 w
  end.

Definition forgetful_services : Services string string Reference.Store :=
  {| ask := forgetful_ask; exec := Reference.reference_exec |}.

(** What the forgetful services answer to the progress handler for
    [alice] in [group1]. *)
Definition forgetful_answers : ProgressAnswers string string :=
  {| resolved_ids := [Some "uid_alice"];
     group := Reference.group1;
     permissions := [];
     stories :=
       Reference.progress_dict (Reference.story_progress Reference.store0)
         ["story1"] [];
     pages :=
       Reference.progress_dict (Reference.subtopic_progress Reference.store0)
         ["topic1:1"] [] |}.

(** *** FacilitatorDashboardHandler *)

(** One entry of ['learner_groups_list']. *)
Module GroupSummary.
Record t (U : Type) : Type := {
  id : string;
  title : option string;
  description : option string;
  facilitator_usernames : U;
  students_count : nat
}.
Arguments id {U} _.
Arguments title {U} _.
Arguments description {U} _.
Arguments facilitator_usernames {U} _.
Arguments students_count {U} _.
End GroupSummary.

Section Dashboard.

(** The two reads of the dashboard: the groups of a facilitator, and
    [user_services.get_usernames] as the handler calls it here, on the
    caller's id itself; [U] is the type of what that call returns. *)
Context {U : Type}.
Variable get_learner_groups_of_facilitator :
  user_id -> Result (list LearnerGroup.t).
Variable get_usernames_of_id : user_id -> Result U.

(** The loop over [learner_groups], appending to [learner_groups_data]. *)
Fixpoint dashboard_loop
    (self : Handler.t) (learner_groups : list LearnerGroup.t)
    (learner_groups_data : list (GroupSummary.t U))
  : Result (list (GroupSummary.t U)) :=
  match learner_groups with
  | [] => Ok learner_groups_data
  | learner_group :: rest =>
      result_bind (get_usernames_of_id (Handler.user_id self))
        (fun facilitator_usernames =>
           dashboard_loop self rest
             (learner_groups_data ++
              [{| GroupSummary.id := LearnerGroup.group_id learner_group;
                  GroupSummary.title := LearnerGroup.title learner_group;
                  GroupSummary.description :=
                    LearnerGroup.description learner_group;
                  GroupSummary.facilitator_usernames :=
                    facilitator_usernames;
                  GroupSummary.students_count :=
                    length (LearnerGroup.student_user_ids learner_group)
               |}]))
  end.

(** [FacilitatorDashboardHandler.get]; it renders
    [{'learner_groups_list': learner_groups_data}]. *)
Definition FacilitatorDashboardHandler_get (self : Handler.t)
  : Result (list (GroupSummary.t U)) :=
  result_bind (get_learner_groups_of_facilitator (Handler.user_id self))
    (fun learner_groups => dashboard_loop self learner_groups []).

End Dashboard.

(** ** The constants loader *)

Section ConstantsProofs.

Import PyStr Constants ConstantsSpec.

Lemma prefix_empty s : String.prefix EmptyString s = true.
Proof. destruct s; reflexivity. Qed.

Lemma prefix_split p : forall s,
  String.prefix p s = true -> exists t, s = p +:+ t.
Proof.
  induction p as [|a p IH]; intros s H.
  - exists s. reflexivity.
  - destruct s as [|b s]; simpl in H; [discriminate|].
    destruct (ascii_dec a b) as [->|]; [|discriminate].
    destruct (IH s H) as [t ->]. exists t. reflexivity.
Qed.

Lemma prefix_append p t : String.prefix p (p +:+ t) = true.
Proof.
  induction p as [|a p IH]; simpl.
  - apply prefix_empty.
  - destruct (ascii_dec a a); [exact IH|congruence].
Qed.

Lemma length_append a b :
  String.length (a +:+ b) = String.length a + String.length b.
Proof.
  induction a as [|c a IH]; simpl; [reflexivity|]. rewrite IH. reflexivity.
Qed.

Lemma prefix_length p : forall s,
  String.prefix p s = true -> String.length p <= String.length s.
Proof.
  intros s H. destruct (prefix_split p s H) as [t ->].
  rewrite length_append. lia.
Qed.

Lemma occurs_at_bound sub : forall s i,
  occurs_at sub s i = true -> i + String.length sub <= String.length s.
Proof.
  intros s i; revert s; induction i as [|i IH]; intros s H; simpl in H.
  - apply prefix_length in H. lia.
  - destruct s as [|c s]; [discriminate|]. apply IH in H. simpl. lia.
Qed.

(** *** [str.find] and [str.rfind] against first and last occurrence *)

Lemma find_from_first sub : forall s i k,
  first_occurrence sub s k -> find_from sub s i = (i + Z.of_nat k)%Z.
Proof.
  induction s as [|c s IH]; intros i k [Hk Hlt].
  - destruct k; simpl in Hk; [|discriminate].
    simpl. rewrite Hk. lia.
  - destruct k as [|k].
    + simpl in Hk. simpl. rewrite Hk. lia.
    + pose proof (Hlt 0 ltac:(lia)) as H0. simpl in H0.
      simpl. rewrite H0. rewrite (IH (i + 1)%Z k); [lia|].
      split; [exact Hk|]. intros j Hj. apply (Hlt (S j)). lia.
Qed.

Lemma find_from_none sub : forall s i,
  no_occurrence sub s -> find_from sub s i = (-1)%Z.
Proof.
  induction s as [|c s IH]; intros i H.
  - pose proof (H 0) as H0. simpl in H0. simpl. rewrite H0. reflexivity.
  - pose proof (H 0) as H0. simpl in H0. simpl. rewrite H0.
    apply IH. intros j. apply (H (S j)).
Qed.

Lemma rfind_from_none sub : forall s i,
  no_occurrence sub s -> rfind_from sub s i = (-1)%Z.
Proof.
  induction s as [|c s IH]; intros i H.
  - pose proof (H 0) as H0. simpl in H0. simpl. rewrite H0. reflexivity.
  - pose proof (H 0) as H0. simpl in H0. simpl.
    rewrite IH; [|intros j; apply (H (S j))]. simpl. rewrite H0. reflexivity.
Qed.

Lemma rfind_from_last sub : forall s i k,
  (0 <= i)%Z ->
  last_occurrence sub s k -> rfind_from sub s i = (i + Z.of_nat k)%Z.
Proof.
  induction s as [|c s IH]; intros i k Hi [Hk Hgt].
  - destruct k; simpl in Hk; [|discriminate].
    simpl. rewrite Hk. lia.
  - destruct k as [|k].
    + simpl in Hk. simpl.
      rewrite rfind_from_none.
      * simpl. rewrite Hk. lia.
      * intros j. apply (Hgt (S j)). lia.
    + simpl. rewrite (IH (i + 1)%Z k); [| lia |].
      * destruct (Z.leb_spec 0 (i + 1 + Z.of_nat k)); lia.
      * split; [exact Hk|]. intros j Hj. apply (Hgt (S j)). lia.
Qed.

Lemma find_from_cases sub : forall s i,
  (0 <= i)%Z ->
  (find_from sub s i = (-1)%Z /\ no_occurrence sub s) \/
  (exists k, find_from sub s i = (i + Z.of_nat k)%Z /\
             first_occurrence sub s k).
Proof.
  induction s as [|c s IH]; intros i Hi.
  - cbn [find_from rfind_from]. destruct (String.prefix sub EmptyString) eqn:Hp.
    + right. exists 0. split; [lia|]. split; [exact Hp|]. intros j Hj. lia.
    + left. split; [reflexivity|]. intros [|j]; [exact Hp|reflexivity].
  - cbn [find_from]. destruct (String.prefix sub (String c s)) eqn:Hp.
    + right. exists 0. split; [lia|]. split; [exact Hp|]. intros j Hj. lia.
    + destruct (IH (i + 1)%Z ltac:(lia)) as [[Hf Hno]|(k & Hf & Hk & Hlt)].
      * left. split; [exact Hf|]. intros [|j]; [exact Hp|apply Hno].
      * right. exists (S k). split; [lia|]. split; [exact Hk|].
        intros [|j] Hj; [exact Hp|]. apply Hlt. lia.
Qed.

Lemma rfind_from_cases sub : forall s i,
  (0 <= i)%Z ->
  (rfind_from sub s i = (-1)%Z /\ no_occurrence sub s) \/
  (exists k, rfind_from sub s i = (i + Z.of_nat k)%Z /\
             last_occurrence sub s k).
Proof.
  induction s as [|c s IH]; intros i Hi.
  - cbn [find_from rfind_from]. destruct (String.prefix sub EmptyString) eqn:Hp.
    + right. exists 0. split; [lia|]. split; [exact Hp|].
      intros [|j] Hj; [lia|reflexivity].
    + left. split; [reflexivity|]. intros [|j]; [exact Hp|reflexivity].
  - cbn [rfind_from].
    destruct (IH (i + 1)%Z ltac:(lia)) as [[Hf Hno]|(k & Hf & Hk & Hgt)].
    + rewrite Hf. change (0 <=? -1)%Z with false. cbv iota.
      destruct (String.prefix sub (String c s)) eqn:Hp.
      * right. exists 0. split; [lia|]. split; [exact Hp|].
        intros [|j] Hj; [lia|apply Hno].
      * left. split; [reflexivity|]. intros [|j]; [exact Hp|apply Hno].
    + rewrite Hf. destruct (Z.leb_spec 0 (i + 1 + Z.of_nat k)); [|lia].
      right. exists (S k). split; [lia|]. split; [exact Hk|].
      intros [|j] Hj; [lia|]. apply Hgt. lia.
Qed.

Lemma first_occurrence_by_find s sub k :
  find s sub = Z.of_nat k -> first_occurrence sub s k.
Proof.
  unfold find. intros H.
  destruct (find_from_cases sub s 0 ltac:(lia)) as [[Hf _]|(k' & Hf & Hk)].
  - lia.
  - replace k with k' by lia. exact Hk.
Qed.

Lemma last_occurrence_by_rfind s sub k :
  rfind s sub = Z.of_nat k -> last_occurrence sub s k.
Proof.
  unfold rfind. intros H.
  destruct (rfind_from_cases sub s 0 ltac:(lia)) as [[Hf _]|(k' & Hf & Hk)].
  - lia.
  - replace k with k' by lia. exact Hk.
Qed.

(** *** Slices with bounds inside the string *)

Lemma substring_zero_length : forall n s, substring n 0 s = EmptyString.
Proof.
  induction n as [|n IH]; intros s; destruct s; simpl; auto.
Qed.

Lemma slice_bound_inside len i :
  (0 <= i <= len)%Z -> slice_bound len i = i.
Proof.
  intros H. unfold slice_bound.
  destruct (Z.ltb_spec i 0); [lia|].
  destruct (Z.ltb_spec i 0); [lia|].
  destruct (Z.ltb_spec len i); lia.
Qed.

Lemma slice_inside s (a b : nat) :
  a <= String.length s -> b <= String.length s ->
  slice s (Z.of_nat a) (Z.of_nat b) = substring a (b - a) s.
Proof.
  intros Ha Hb. unfold slice. cbv zeta.
  rewrite !slice_bound_inside by lia.
  f_equal; lia.
Qed.

(** *** The scan against the pattern *)

Lemma is_LF_true c : is_LF c = true -> c = LF.
Proof. unfold is_LF. apply Ascii.eqb_eq. Qed.

Lemma has_newline_append a b :
  has_newline (a +:+ b) = has_newline a || has_newline b.
Proof.
  induction a as [|c a IH]; simpl; [reflexivity|].
  rewrite IH. apply orb_assoc.
Qed.

Lemma has_newline_split : forall s,
  has_newline s = true ->
  exists body rest, s = body +:+ String LF rest /\ has_newline body = false.
Proof.
  induction s as [|c s IH]; simpl; intros H; [discriminate|].
  destruct (is_LF c) eqn:Hc.
  - apply is_LF_true in Hc. subst c.
    exists EmptyString, s. split; reflexivity.
  - simpl in H. destruct (IH H) as (body & rest & -> & Hb).
    exists (String c body), rest. split; [reflexivity|].
    simpl. rewrite Hc. exact Hb.
Qed.

Lemma comment_matches_iff s :
  comment_matches s = true <-> comment_at_start s.
Proof.
  unfold comment_matches, comment_at_start. split.
  - intros H. apply andb_prop in H as [Hp Hn].
    destruct (prefix_split _ _ Hp) as [t ->].
    rewrite has_newline_append in Hn. simpl in Hn.
    destruct (has_newline_split t Hn) as (body & rest & -> & Hb).
    exists body, rest. split; [exact Hb|reflexivity].
  - intros (body & rest & Hb & ->).
    rewrite prefix_append.
    rewrite !has_newline_append. simpl.
    apply orb_true_r.
Qed.

Lemma scan_in_comment : forall body rest,
  has_newline body = false ->
  remove_comments_scan true (body +:+ String LF rest)
  = remove_comments_scan false rest.
Proof.
  induction body as [|c body IH]; intros rest H; simpl.
  - reflexivity.
  - simpl in H. apply orb_false_elim in H as [Hc Hb].
    rewrite Hc. apply IH. exact Hb.
Qed.

Lemma scan_at_comment body rest :
  has_newline body = false ->
  remove_comments_scan false (comment_opening +:+ body +:+ String LF rest)
  = remove_comments_scan false rest.
Proof.
  intros Hb.
  assert (Hm : comment_matches
                 (comment_opening +:+ body +:+ String LF rest) = true).
  { apply comment_matches_iff. exists body, rest. auto. }
  change (comment_opening +:+ body +:+ String LF rest)
    with (String " " (String " " (String "/" (String "/" body))
                      +:+ String LF rest)) in *.
  cbn [remove_comments_scan]. rewrite Hm.
  apply (scan_in_comment (String " " (String "/" (String "/" body)))).
  exact Hb.
Qed.

Lemma scan_at_char c rest :
  comment_matches (String c rest) = false ->
  remove_comments_scan false (String c rest)
  = String c (remove_comments_scan false rest).
Proof. intros Hm. cbn [remove_comments_scan]. rewrite Hm. reflexivity. Qed.

Lemma remove_comments_scan_strips : forall n text,
  String.length text <= n ->
  strips_comments text (remove_comments_scan false text).
Proof.
  induction n as [|n IH]; intros text Hlen.
  - destruct text; simpl in Hlen; [constructor|lia].
  - destruct text as [|c rest]; [constructor|].
    destruct (comment_matches (String c rest)) eqn:Hm.
    + pose proof (proj1 (comment_matches_iff _) Hm)
        as (body & tail & Hb & Heq).
      rewrite Heq, (scan_at_comment body tail Hb).
      apply strips_comment; [exact Hb|].
      apply IH. rewrite Heq in Hlen.
      rewrite !length_append in Hlen. simpl in Hlen. lia.
    + rewrite (scan_at_char c rest Hm). apply strips_char.
      * intros Hc. apply comment_matches_iff in Hc. congruence.
      * apply IH. simpl in Hlen. lia.
Qed.

Lemma remove_comments_strips text :
  strips_comments text (remove_comments text).
Proof. apply (remove_comments_scan_strips (String.length text)). lia. Qed.

(** The relation has one outcome per text. *)
Lemma strips_comments_unique text out :
  strips_comments text out -> out = remove_comments text.
Proof.
  unfold remove_comments.
  induction 1 as [|body rest out Hb _ IH|c rest out Hc _ IH].
  - reflexivity.
  - rewrite (scan_at_comment body rest Hb). exact IH.
  - rewrite scan_at_char, IH; [reflexivity|].
    destruct (comment_matches (String c rest)) eqn:Hm; [|reflexivity].
    apply comment_matches_iff in Hm. contradiction.
Qed.

(** [json_source] when the stripped text has an opening brace line. *)
Lemma json_source_from_opening text s :
  first_occurrence brace_newline (remove_comments text) s ->
  (forall e, last_occurrence "}" (remove_comments text) e ->
     json_source text = substring s (e + 1 - s) (remove_comments text)) /\
  (no_occurrence "}" (remove_comments text) ->
     json_source text = EmptyString).
Proof.
  intros Hs. unfold json_source. cbv zeta.
  set (t := remove_comments text) in *.
  pose proof (occurs_at_bound _ _ _ (proj1 Hs)) as Hsb.
  unfold find. rewrite (find_from_first _ _ 0 s Hs).
  split.
  - intros e He.
    pose proof (occurs_at_bound _ _ _ (proj1 He)) as Heb. simpl in Heb.
    unfold rfind. rewrite (rfind_from_last _ _ 0 e ltac:(lia) He).
    replace (0 + Z.of_nat e + 1)%Z with (Z.of_nat (e + 1)) by lia.
    rewrite Z.add_0_l. apply slice_inside; lia.
  - intros Hno. unfold rfind. rewrite (rfind_from_none _ _ 0 Hno).
    change (-1 + 1)%Z with (Z.of_nat 0). rewrite Z.add_0_l.
    rewrite slice_inside by lia.
    apply substring_zero_length.
Qed.

(** C6 (as amended).  [parse_json_from_ts] strips the text of every match
    of the two-space-indented line-comment pattern (the stripped text is
    the one outcome of removing the matches leftmost first), and, when the
    stripped text has an opening brace followed by a newline, parses
    exactly the part of it from the first such brace to the last closing
    brace, that brace included; the part is empty when no closing brace
    follows. *)
Theorem parse_json_from_ts_extracts
    {JSON} (json_loads : string -> Result JSON) (text : string) (s : nat) :
  first_occurrence brace_newline (remove_comments text) s ->
  (forall out, strips_comments text out <-> out = remove_comments text) /\
  (forall e, last_occurrence "}" (remove_comments text) e ->
     parse_json_from_ts json_loads text
     = json_loads (substring s (e + 1 - s) (remove_comments text))) /\
  (no_occurrence "}" (remove_comments text) ->
     parse_json_from_ts json_loads text = json_loads EmptyString).
Proof.
  intros Hs. destruct (json_source_from_opening text s Hs) as [Hlast Hnone].
  unfold parse_json_from_ts. split; [|split].
  - intros out. split.
    + apply strips_comments_unique.
    + intros ->. apply remove_comments_strips.
  - intros e He. rewrite (Hlast e He). reflexivity.
  - intros Hno. rewrite (Hnone Hno). reflexivity.
Qed.

Lemma parse_json_from_ts_extracts_witness :
  first_occurrence brace_newline (remove_comments sample_ts) 36 /\
  last_occurrence "}" (remove_comments sample_ts) 57 /\
  parse_json_from_ts echo_loads sample_ts
  = Ok (line "{" +:+ line "  MAX: 30,  MIN: 1" +:+ "}").
Proof.
  assert (Hs : first_occurrence brace_newline (remove_comments sample_ts) 36)
    by (apply first_occurrence_by_find; reflexivity).
  assert (He : last_occurrence "}" (remove_comments sample_ts) 57)
    by (apply last_occurrence_by_rfind; reflexivity).
  split; [exact Hs|]. split; [exact He|].
  destruct (parse_json_from_ts_extracts echo_loads sample_ts 36 Hs)
    as (_ & Hparse & _).
  rewrite (Hparse 57 He). reflexivity.
Defined.

(** C6 as stated fails on a text without an opening brace line: for [x}]
    the parser is given [}], which starts at no such brace. *)
Lemma parse_json_from_ts_without_opening :
  json_source "x}" = "}" /\ ~ extracts_between_braces "x}".
Proof.
  split; [reflexivity|].
  intros (s & e & [Hs _] & _ & _).
  apply occurs_at_bound in Hs as Hb.
  change (remove_comments "x}") with "x}" in *. simpl in Hb.
  destruct s as [|[|s]]; [discriminate Hs|lia|lia].
Qed.

(** *** [get_package_file_contents] *)




(** *** [Constants] *)




End ConstantsProofs.

(** ** The learner-group handlers *)

Section RunLemmas.

Context {StoryProgress SubtopicPageProgress W : Type}.
Context (svc : Services StoryProgress SubtopicPageProgress W).

(** Reads leave the store alone. *)
Lemma run_store_unchanged {R} (p : Prog _ _ R) : forall w,
  forallb (fun ev => negb (is_mutation ev)) (calls (run svc p w)) = true ->
  store (run svc p w) = w.
Proof.
  induction p as [r|e|q k IH|c k IH]; intros w; simpl; try reflexivity.
  - destruct (ask svc q w) as [x|e]; simpl; [|reflexivity]. apply IH.
  - destruct (exec svc c w) as [[x|e] w']; simpl; discriminate.
Qed.

(** What [learner_group_dict] renders and calls. *)
Lemma learner_group_dict_inv (g : LearnerGroup.t) w r :
  result (run svc (learner_group_dict g) w) = Ok r ->
  store (run svc (learner_group_dict g) w) = w /\
  calls (run svc (learner_group_dict g) w)
  = [Asked (get_usernames (LearnerGroup.facilitator_user_ids g));
     Asked (get_usernames (LearnerGroup.student_user_ids g));
     Asked (get_usernames (LearnerGroup.invited_student_user_ids g))] /\
  GroupDict.id r = LearnerGroup.group_id g /\
  ask svc (get_usernames (LearnerGroup.facilitator_user_ids g)) w
  = Ok (GroupDict.facilitator_usernames r) /\
  ask svc (get_usernames (LearnerGroup.student_user_ids g)) w
  = Ok (GroupDict.student_usernames r) /\
  ask svc (get_usernames (LearnerGroup.invited_student_user_ids g)) w
  = Ok (GroupDict.invited_student_usernames r).
Proof.
  unfold learner_group_dict. cbn.
  destruct (ask svc (get_usernames (LearnerGroup.facilitator_user_ids g)) w)
    as [fs|]; [|discriminate].
  destruct (ask svc (get_usernames (LearnerGroup.student_user_ids g)) w)
    as [ss|]; [|discriminate].
  destruct (ask svc
              (get_usernames (LearnerGroup.invited_student_user_ids g)) w)
    as [ns|]; [|discriminate].
  cbn. intros [= <-]. cbn. repeat split.
Qed.

(** The course of a POST that rendered. *)
Lemma post_inv (self : Handler.t) (payload : Payload.t) w r :
  result (run svc (CreateLearnerGroupHandler_post self payload) w) = Ok r ->
  exists ids new_id g w',
    ask svc (get_multi_user_ids_from_usernames
               (Payload.invited_student_usernames payload)) w = Ok ids /\
    ask svc get_new_learner_group_id w = Ok new_id /\
    exec svc (create_learner_group new_id
                (Payload.group_title payload)
                (Payload.group_description payload)
                [Handler.user_id self] ids
                (Payload.subtopic_page_ids payload)
                (Payload.story_ids payload)) w = (Ok g, w') /\
    store (run svc (CreateLearnerGroupHandler_post self payload) w) = w' /\
    calls (run svc (CreateLearnerGroupHandler_post self payload) w)
    = Asked (get_multi_user_ids_from_usernames
               (Payload.invited_student_usernames payload))
      :: Asked get_new_learner_group_id
      :: Executed (create_learner_group new_id
                     (Payload.group_title payload)
                     (Payload.group_description payload)
                     [Handler.user_id self] ids
                     (Payload.subtopic_page_ids payload)
                     (Payload.story_ids payload))
      :: calls (run svc (learner_group_dict g) w') /\
    result (run svc (learner_group_dict g) w') = Ok r.
Proof.
  unfold CreateLearnerGroupHandler_post. cbn.
  destruct (ask svc (get_multi_user_ids_from_usernames
                       (Payload.invited_student_usernames payload)) w)
    as [ids|]; [|discriminate]. cbn.
  destruct (ask svc get_new_learner_group_id w) as [new_id|];
    [|discriminate]. cbn.
  destruct (exec svc (create_learner_group new_id
                        (Payload.group_title payload)
                        (Payload.group_description payload)
                        [Handler.user_id self] ids
                        (Payload.subtopic_page_ids payload)
                        (Payload.story_ids payload)) w)
    as [[g|] w'] eqn:Hexec; [|discriminate]. cbn.
  intros Hr. exists ids, new_id, g, w'.
  pose proof (learner_group_dict_inv g w' r Hr) as (Hst & _).
  repeat split; try assumption.
Qed.

(** The course of a PUT that rendered. *)
Lemma put_inv (self : Handler.t) (payload : Payload.t) (gid : string) w r :
  result (run svc (LearnerGroupHandler_put self payload gid) w) = Ok r ->
  exists student_ids invited_ids g w',
    ask svc (is_user_facilitator (Handler.user_id self) gid) w = Ok true /\
    ask svc (get_multi_user_ids_from_usernames
               (Payload.student_usernames payload)) w = Ok student_ids /\
    ask svc (get_multi_user_ids_from_usernames
               (Payload.invited_student_usernames payload)) w
    = Ok invited_ids /\
    exec svc (update_learner_group gid
                (Payload.group_title payload)
                (Payload.group_description payload)
                [Handler.user_id self] student_ids invited_ids
                (Payload.subtopic_page_ids payload)
                (Payload.story_ids payload)) w = (Ok g, w') /\
    store (run svc (LearnerGroupHandler_put self payload gid) w) = w' /\
    calls (run svc (LearnerGroupHandler_put self payload gid) w)
    = Asked (is_user_facilitator (Handler.user_id self) gid)
      :: Asked (get_multi_user_ids_from_usernames
                  (Payload.student_usernames payload))
      :: Asked (get_multi_user_ids_from_usernames
                  (Payload.invited_student_usernames payload))
      :: Executed (update_learner_group gid
                     (Payload.group_title payload)
                     (Payload.group_description payload)
                     [Handler.user_id self] student_ids invited_ids
                     (Payload.subtopic_page_ids payload)
                     (Payload.story_ids payload))
      :: calls (run svc (learner_group_dict g) w') /\
    result (run svc (learner_group_dict g) w') = Ok r.
Proof.
  unfold LearnerGroupHandler_put. cbn.
  destruct (ask svc (is_user_facilitator (Handler.user_id self) gid) w)
    as [[|]|]; [|discriminate|discriminate]. cbn.
  destruct (ask svc (get_multi_user_ids_from_usernames
                       (Payload.student_usernames payload)) w)
    as [student_ids|]; [|discriminate]. cbn.
  destruct (ask svc (get_multi_user_ids_from_usernames
                       (Payload.invited_student_usernames payload)) w)
    as [invited_ids|] eqn:Hinv; [|discriminate]. cbn.
  destruct (exec svc (update_learner_group gid
                        (Payload.group_title payload)
                        (Payload.group_description payload)
                        [Handler.user_id self] student_ids invited_ids
                        (Payload.subtopic_page_ids payload)
                        (Payload.story_ids payload)) w)
    as [[g|] w'] eqn:Hexec; [|discriminate]. cbn.
  intros Hr. exists student_ids, invited_ids, g, w'.
  pose proof (learner_group_dict_inv g w' r Hr) as (Hst & _).
  repeat split; try assumption.
Qed.

(** *** The two loops of the progress handler *)

Lemma collect_sharing_on_aligned : forall ids pre perms acc,
  length ids <= length perms ->
  collect_sharing_on (pre ++ perms) (length pre) ids acc
  = Ok (acc ++ students_sharing perms ids).
Proof.
  induction ids as [|uid ids IH]; intros pre perms acc Hlen.
  - destruct perms; simpl; rewrite app_nil_r; reflexivity.
  - destruct perms as [|b perms]; simpl in Hlen; [lia|].
    cbn [collect_sharing_on]. unfold list_getitem.
    rewrite list_lookup_middle by reflexivity. cbn [result_bind].
    replace (pre ++ b :: perms) with ((pre ++ [b]) ++ perms)
      by (rewrite <- app_assoc; reflexivity).
    replace (S (length pre)) with (length (pre ++ [b]))
      by (rewrite length_app; simpl; lia).
    rewrite IH by lia. cbn [students_sharing].
    destruct b; [rewrite <- app_assoc|]; reflexivity.
Qed.

Lemma collect_sharing_on_inv : forall ids pre perms acc on,
  collect_sharing_on (pre ++ perms) (length pre) ids acc = Ok on ->
  length ids <= length perms.
Proof.
  induction ids as [|uid ids IH]; intros pre perms acc on H.
  - simpl. lia.
  - destruct perms as [|b perms]; cbn [collect_sharing_on] in H;
      unfold list_getitem in H.
    + rewrite app_nil_r, lookup_ge_None_2 in H by lia. discriminate H.
    + rewrite list_lookup_middle in H by reflexivity.
      cbn [result_bind] in H.
      replace (pre ++ b :: perms) with ((pre ++ [b]) ++ perms) in H
        by (rewrite <- app_assoc; reflexivity).
      replace (S (length pre)) with (length (pre ++ [b])) in H
        by (rewrite length_app; simpl; lia).
      apply IH in H. simpl. lia.
Qed.

Section Entries.

Context (names : list string) (perms : list bool)
        (sp : gmap (option string) (list StoryProgress))
        (sbp : gmap (option string) (list SubtopicPageProgress)).

Lemma entry_sharing_off i uid name :
  names !! i = Some name -> perms !! i = Some false ->
  student_progress_entry names perms sp sbp i uid
  = Ok {| username := name; progress_sharing_is_turned_on := false;
          stories_progress := []; subtopic_pages_progress := [] |}.
Proof.
  intros Hn Hp. unfold student_progress_entry, list_getitem.
  rewrite Hn, Hp. reflexivity.
Qed.

Lemma entry_sharing_on i uid name s p :
  names !! i = Some name -> perms !! i = Some true ->
  sp !! uid = Some s -> sbp !! uid = Some p ->
  student_progress_entry names perms sp sbp i uid
  = Ok {| username := name; progress_sharing_is_turned_on := true;
          stories_progress := s; subtopic_pages_progress := p |}.
Proof.
  intros Hn Hp Hs Hb.
  unfold student_progress_entry, list_getitem, dict_getitem.
  rewrite Hn, Hp. cbn. rewrite Hs. cbn. rewrite Hb. reflexivity.
Qed.

Lemma entry_inv i uid e :
  student_progress_entry names perms sp sbp i uid = Ok e ->
  exists (name : string) (flag : bool),
    names !! i = Some name /\ perms !! i = Some flag /\
    if flag
    then exists s p,
           sp !! uid = Some s /\ sbp !! uid = Some p /\
           e = {| username := name; progress_sharing_is_turned_on := true;
                  stories_progress := s; subtopic_pages_progress := p |}
    else e = {| username := name; progress_sharing_is_turned_on := false;
                stories_progress := []; subtopic_pages_progress := [] |}.
Proof.
  unfold student_progress_entry, list_getitem, dict_getitem.
  destruct (names !! i) as [name|]; [|discriminate].
  destruct (perms !! i) as [[|]|]; cbn; [| |discriminate].
  - destruct (sp !! uid) as [s|]; [|discriminate]. cbn.
    destruct (sbp !! uid) as [p|]; [|discriminate]. cbn.
    intros [= <-]. exists name, true. repeat split. exists s, p. auto.
  - intros [= <-]. exists name, false. auto.
Qed.

Lemma collect_progress_inv : forall ids i acc all,
  collect_progress names perms sp sbp i ids acc = Ok all ->
  exists out,
    all = acc ++ out /\
    length out = length ids /\
    forall j uid, ids !! j = Some uid ->
      exists e, out !! j = Some e /\
                student_progress_entry names perms sp sbp (i + j) uid
                = Ok e.
Proof.
  induction ids as [|uid ids IH]; intros i acc all Hall.
  - injection Hall as <-. exists []. rewrite app_nil_r. repeat split.
    intros j u Hj. rewrite lookup_nil in Hj. discriminate.
  - cbn [collect_progress] in Hall.
    destruct (student_progress_entry names perms sp sbp i uid)
      as [e|] eqn:He; [|discriminate].
    cbn [result_bind] in Hall.
    destruct (IH (S i) (acc ++ [e]) all Hall) as (out & -> & Hlen & Hent).
    exists (e :: out). rewrite <- app_assoc.
    split; [reflexivity|]. split; [simpl; lia|].
    intros [|j] u Hj.
    + injection Hj as <-. exists e. rewrite Nat.add_0_r. auto.
    + destruct (Hent j u Hj) as (e' & Hl & He').
      exists e'. replace (i + S j) with (S i + j) by lia. auto.
Qed.

Lemma collect_progress_entries : forall ids i acc,
  (forall j uid, ids !! j = Some uid ->
     is_ok (student_progress_entry names perms sp sbp (i + j) uid)
     = true) ->
  exists out,
    collect_progress names perms sp sbp i ids acc
    = Ok (acc ++ out) /\
    length out = length ids /\
    forall j uid, ids !! j = Some uid ->
      exists e, out !! j = Some e /\
                student_progress_entry names perms sp sbp (i + j) uid
                = Ok e.
Proof.
  induction ids as [|uid ids IH]; intros i acc Hok.
  - exists []. rewrite app_nil_r. repeat split. intros j u Hj.
    rewrite lookup_nil in Hj. discriminate.
  - pose proof (Hok 0 uid eq_refl) as H0. rewrite Nat.add_0_r in H0.
    destruct (student_progress_entry names perms sp sbp i uid)
      as [e|] eqn:He; [|discriminate].
    destruct (IH (S i) (acc ++ [e])) as (out & Hrun & Hlen & Hent).
    { intros j u Hj. replace (S i + j) with (i + S j) by lia.
      apply Hok. exact Hj. }
    exists (e :: out). cbn [collect_progress]. rewrite He.
    cbn [result_bind]. rewrite Hrun, <- app_assoc.
    split; [reflexivity|]. split; [simpl; lia|].
    intros [|j] u Hj.
    + injection Hj as <-. exists e. rewrite Nat.add_0_r. auto.
    + destruct (Hent j u Hj) as (e' & Hl & He').
      exists e'. replace (i + S j) with (S i + j) by lia. auto.
Qed.

End Entries.

(** The progress handler on aligned answers: it renders one entry per
    id, the one the loop body builds at that index. *)
Lemma progress_run
    (w : W) (self : Handler.t) (usernames : list string) (gid : string)
    (a : ProgressAnswers StoryProgress SubtopicPageProgress) :
  progress_services_answer svc w usernames gid a ->
  aligned usernames a ->
  exists entries,
    result (run svc (LearnerGroupStudentProgressHandler_get
                       self usernames gid) w) = Ok entries /\
    length entries = length usernames /\
    forall j uid, resolved_ids a !! j = Some uid ->
      exists e, entries !! j = Some e /\
                student_progress_entry usernames (permissions a)
                  (stories a) (pages a) j uid = Ok e.
Proof.
  intros (Hids & Hg & Hperms & Hsp & Hsbp) (Hl1 & Hl2 & Hdom).
  destruct (collect_progress_entries usernames (permissions a)
              (stories a) (pages a) (resolved_ids a) 0 [])
    as (out & Hrun & Hlen & Hent).
  { intros j uid Hj. cbn [Nat.add].
    pose proof (lookup_lt_Some _ _ _ Hj) as Hlt.
    destruct (lookup_lt_is_Some_2 usernames j ltac:(lia)) as [name Hn].
    destruct (lookup_lt_is_Some_2 (permissions a) j ltac:(lia))
      as [flag Hp].
    destruct flag.
    - destruct (Hdom j uid Hj Hp) as [[s Hs] [p Hpg]].
      rewrite (entry_sharing_on _ _ _ _ j uid name s p); auto.
    - rewrite (entry_sharing_off _ _ _ _ j uid name); auto. }
  exists out. unfold LearnerGroupStudentProgressHandler_get. cbn.
  rewrite Hids. cbn. rewrite Hg. cbn. rewrite Hperms. cbn.
  pose proof (collect_sharing_on_aligned
                (resolved_ids a) [] (permissions a) [] ltac:(lia)) as Hon.
  cbn [app length] in Hon. rewrite Hon.
  cbn. rewrite Hsp. cbn. rewrite Hsbp. cbn. rewrite Hrun. cbn.
  split; [reflexivity|]. split; [lia|]. exact Hent.
Qed.

(** The progress handler when it renders: one entry per id, the one the
    loop body builds at that index. *)
Lemma progress_run_inv
    (w : W) (self : Handler.t) (usernames : list string) (gid : string)
    (a : ProgressAnswers StoryProgress SubtopicPageProgress)
    (entries : list (StudentProgress StoryProgress SubtopicPageProgress)) :
  progress_services_answer svc w usernames gid a ->
  result (run svc (LearnerGroupStudentProgressHandler_get
                     self usernames gid) w) = Ok entries ->
  length entries = length (resolved_ids a) /\
  forall j uid, resolved_ids a !! j = Some uid ->
    exists e, entries !! j = Some e /\
              student_progress_entry usernames (permissions a)
                (stories a) (pages a) j uid = Ok e.
Proof.
  intros (Hids & Hg & Hperms & Hsp & Hsbp).
  unfold LearnerGroupStudentProgressHandler_get. cbn.
  rewrite Hids. cbn. rewrite Hg. cbn. rewrite Hperms. cbn.
  destruct (collect_sharing_on (permissions a) 0 (resolved_ids a) [])
    as [on|] eqn:Hon; [|discriminate].
  pose proof (collect_sharing_on_inv
                (resolved_ids a) [] (permissions a) [] on Hon) as Hle.
  pose proof (collect_sharing_on_aligned
                (resolved_ids a) [] (permissions a) [] Hle) as Hal.
  cbn [app length] in Hal. rewrite Hal in Hon. injection Hon as <-.
  cbn. rewrite Hsp. cbn. rewrite Hsbp. cbn.
  destruct (collect_progress usernames (permissions a) (stories a) (pages a)
              0 (resolved_ids a) []) as [all|] eqn:Hall; [|discriminate].
  cbn. intros [= <-].
  destruct (collect_progress_inv _ _ _ _ _ _ _ _ Hall)
    as (out & -> & Hlen & Hent).
  split; [exact Hlen|exact Hent].
Qed.

End RunLemmas.

Section HandlerProofs.

Context {StoryProgress SubtopicPageProgress W : Type}.
Context (svc : Services StoryProgress SubtopicPageProgress W).

(** C4.  A PUT by a caller whom the service does not report as a
    facilitator of the group raises the unauthorized-user error after the
    facilitator check alone: no write is called and the datastore, so the
    group, is as before. *)
Theorem put_by_non_facilitator
    (w : W) (self : Handler.t) (payload : Payload.t) (gid : string) :
  ask svc (is_user_facilitator (Handler.user_id self) gid) w = Ok false ->
  let o := run svc (LearnerGroupHandler_put self payload gid) w in
  result o = Err (UnauthorizedUserException
                    "You are not a facilitator of this learner group.") /\
  calls o = [Asked (is_user_facilitator (Handler.user_id self) gid)] /\
  Forall (fun ev => is_mutation ev = false) (calls o) /\
  store o = w.
Proof.
  intros H. unfold LearnerGroupHandler_put. cbn. rewrite H. cbn.
  repeat split. repeat constructor.
Qed.

(** C2 (as amended).  When the fetcher finds no group for the id, the
    progress handler raises the invalid-input error ['No such learner
    group exists.'], having called only the username resolution and the
    group fetcher, and no progress service. *)
Theorem progress_of_missing_group
    (w : W) (self : Handler.t) (usernames : list string) (gid : string)
    (ids : list user_id) :
  ask svc (get_multi_user_ids_from_usernames usernames) w = Ok ids ->
  ask svc (get_learner_group_by_id gid) w = Ok None ->
  let o := run svc (LearnerGroupStudentProgressHandler_get
                      self usernames gid) w in
  result o = Err (InvalidInputException "No such learner group exists.") /\
  calls o = [Asked (get_multi_user_ids_from_usernames usernames);
             Asked (get_learner_group_by_id gid)] /\
  Forall (fun ev => is_progress_service ev = false) (calls o).
Proof.
  intros Hids Hg. unfold LearnerGroupStudentProgressHandler_get. cbn.
  rewrite Hids. cbn. rewrite Hg. cbn.
  repeat split. repeat constructor.
Qed.

(** C5 (as amended).  The student search renders in every case in which
    the services answer: an unknown username gives the does-not-exist
    message, the caller's own username (compared after [str.lower]) gives
    the cannot-invite-yourself message, an invitation the service reports
    invalid gives the service's message as it is, and a valid one gives an
    empty error with the profile picture.  An error the method ends with
    is one a service raised.  An empty error field comes from the
    invitation check alone: with a valid invitation, or with an invalid
    one for which the service's own message is empty. *)
Theorem search_student_reports_in_band
    (str_lower : string -> string)
    (w : W) (self : Handler.t) (username gid : string) :
  let o := run svc (LearnerGroupSearchStudentHandler_get
                      str_lower self username gid) w in
  (ask svc (get_user_settings_from_username username) w = Ok None ->
   result o
   = Ok {| SearchDict.username := username;
           SearchDict.profile_picture_data_url := EmptyString;
           SearchDict.error :=
             "User with username " +:+ username +:+ " does not exist." |}) /\
  (forall us,
     ask svc (get_user_settings_from_username username) w = Ok (Some us) ->
     (str_lower (Handler.username self) = str_lower username ->
      result o
      = Ok {| SearchDict.username := UserSettings.username us;
              SearchDict.profile_picture_data_url := EmptyString;
              SearchDict.error :=
                "You cannot invite yourself to the group" |}) /\
     (str_lower (Handler.username self) <> str_lower username ->
      forall valid error,
        ask svc (can_user_be_invited (UserSettings.user_id us)
                   (UserSettings.username us) gid) w = Ok (valid, error) ->
        (valid = false ->
         result o
         = Ok {| SearchDict.username := UserSettings.username us;
                 SearchDict.profile_picture_data_url := EmptyString;
                 SearchDict.error := error |}) /\
        (valid = true ->
         result o
         = Ok {| SearchDict.username := UserSettings.username us;
                 SearchDict.profile_picture_data_url :=
                   UserSettings.profile_picture_data_url us;
                 SearchDict.error := EmptyString |}))) /\
  (forall e,
     result o = Err e ->
     ask svc (get_user_settings_from_username username) w = Err e \/
     exists us,
       ask svc (get_user_settings_from_username username) w = Ok (Some us) /\
       ask svc (can_user_be_invited (UserSettings.user_id us)
                  (UserSettings.username us) gid) w = Err e) /\
  (forall r,
     result o = Ok r -> SearchDict.error r = EmptyString ->
     exists us valid error,
       ask svc (get_user_settings_from_username username) w = Ok (Some us) /\
       ask svc (can_user_be_invited (UserSettings.user_id us)
                  (UserSettings.username us) gid) w = Ok (valid, error) /\
       (valid = true \/ error = EmptyString)).
Proof.
  unfold LearnerGroupSearchStudentHandler_get. cbn.
  destruct (ask svc (get_user_settings_from_username username) w)
    as [[us|]|e0] eqn:Hus; cbn.
  - destruct (String.eqb (str_lower (Handler.username self))
                         (str_lower username)) eqn:Hself; cbn.
    + apply String.eqb_eq in Hself.
      split; [discriminate|]. split; [|split].
      * intros us' [= <-]. split; [reflexivity|]. intros Hne. contradiction.
      * discriminate.
      * intros r [= <-]. discriminate.
    + apply String.eqb_neq in Hself.
      destruct (ask svc (can_user_be_invited (UserSettings.user_id us)
                           (UserSettings.username us) gid) w)
        as [[valid error]|e1] eqn:Hinv; cbn.
      * destruct valid; cbn.
        -- split; [discriminate|]. split; [|split].
           ++ intros us' [= <-]. split; [contradiction|].
              intros _ valid' error' Heq. rewrite Hinv in Heq.
              injection Heq as <- <-.
              split; [discriminate|reflexivity].
           ++ discriminate.
           ++ intros r _ _. exists us, true, error. auto.
        -- split; [discriminate|]. split; [|split].
           ++ intros us' [= <-]. split; [contradiction|].
              intros _ valid' error' Heq. rewrite Hinv in Heq.
              injection Heq as <- <-.
              split; [reflexivity|discriminate].
           ++ discriminate.
           ++ intros r [= <-] Herr. cbn in Herr.
              exists us, false, error. auto.
      * split; [discriminate|]. split; [|split].
        -- intros us' [= <-]. split; [contradiction|].
           intros _ valid error Heq. rewrite Hinv in Heq. discriminate.
        -- intros e [= <-]. right. exists us. auto.
        -- discriminate.
  - split; [reflexivity|]. split; [discriminate|]. split; [discriminate|].
    intros r [= <-]. cbn. discriminate.
  - split; [discriminate|]. split; [discriminate|]. split.
    + intros e [= <-]. left. reflexivity.
    + discriminate.
Qed.

(** C3.  On an existing group, whenever the progress handler renders,
    each requested student has an entry at the student's position: with
    the sharing permission off, the entry has the flag off and both
    progress lists empty, whatever the progress dicts hold; with it on,
    the entry carries what the two dicts hold for the student's user id.
    The handler does render when the answers of the services are aligned
    with the request. *)
Theorem progress_hidden_unless_shared
    (w : W) (self : Handler.t) (usernames : list string) (gid : string)
    (a : ProgressAnswers StoryProgress SubtopicPageProgress) :
  progress_services_answer svc w usernames gid a ->
  (aligned usernames a ->
   exists entries,
     result (run svc (LearnerGroupStudentProgressHandler_get
                        self usernames gid) w) = Ok entries) /\
  (forall entries,
     result (run svc (LearnerGroupStudentProgressHandler_get
                        self usernames gid) w) = Ok entries ->
     forall i name uid,
       usernames !! i = Some name ->
       resolved_ids a !! i = Some uid ->
       (permissions a !! i = Some false ->
        entries !! i
        = Some {| username := name;
                  progress_sharing_is_turned_on := false;
                  stories_progress := [];
                  subtopic_pages_progress := [] |}) /\
       (permissions a !! i = Some true ->
        exists s p,
          stories a !! uid = Some s /\ pages a !! uid = Some p /\
          entries !! i
          = Some {| username := name;
                    progress_sharing_is_turned_on := true;
                    stories_progress := s;
                    subtopic_pages_progress := p |})).
Proof.
  intros Hans. split.
  - intros Hal.
    destruct (progress_run svc w self usernames gid a Hans Hal)
      as (entries & Hres & _).
    exists entries. exact Hres.
  - intros entries Hres i name uid Hn Hu.
    destruct (progress_run_inv svc w self usernames gid a entries Hans Hres)
      as (_ & Hent).
    destruct (Hent i uid Hu) as (e & Hl & He).
    apply entry_inv in He as (name' & flag & Hn' & Hp' & He).
    rewrite Hn in Hn'. injection Hn' as <-.
    split; intros Hp; rewrite Hp in Hp'; injection Hp' as <-.
    + subst e. exact Hl.
    + destruct He as (s & p & Hs & Hpg & ->). exists s, p. auto.
Qed.

(** C10.  On an existing group and aligned answers of the services, the
    progress handler renders exactly one entry per requested username, in
    request order: the entry at position [i] carries the username at
    position [i] of the request and the flag at position [i] of the
    permission answer. *)
Theorem progress_entries_follow_request
    (w : W) (self : Handler.t) (usernames : list string) (gid : string)
    (a : ProgressAnswers StoryProgress SubtopicPageProgress) :
  progress_services_answer svc w usernames gid a ->
  aligned usernames a ->
  exists entries,
    result (run svc (LearnerGroupStudentProgressHandler_get
                       self usernames gid) w) = Ok entries /\
    length entries = length usernames /\
    forall i name flag,
      usernames !! i = Some name ->
      permissions a !! i = Some flag ->
      exists e, entries !! i = Some e /\
                username e = name /\
                progress_sharing_is_turned_on e = flag.
Proof.
  intros Hans Hal.
  destruct (progress_run svc w self usernames gid a Hans Hal)
    as (entries & Hres & Hlen & Hent).
  exists entries. split; [exact Hres|]. split; [exact Hlen|].
  intros i name flag Hn Hp.
  destruct Hal as (Hl1 & _ & Hdom).
  pose proof (lookup_lt_Some _ _ _ Hn) as Hlt.
  destruct (lookup_lt_is_Some_2 (resolved_ids a) i ltac:(lia)) as [uid Hu].
  destruct (Hent i uid Hu) as (e & Hl & He).
  exists e. split; [exact Hl|].
  destruct flag.
  - destruct (Hdom i uid Hu Hp) as [[s Hs] [p Hpg]].
    rewrite (entry_sharing_on _ _ _ _ i uid name s p Hn Hp Hs Hpg) in He.
    injection He as <-. split; reflexivity.
  - rewrite (entry_sharing_off _ _ _ _ i uid name Hn Hp) in He.
    injection He as <-. split; reflexivity.
Qed.

(** C1 (as amended).  A POST that renders gives, as
    ['student_usernames'] and ['invited_student_usernames'], the
    usernames the service has for the student ids and the invited ids of
    the group that creation returned; that group was created from the
    ids resolved from the submitted ['invited_student_usernames'], and
    the submitted ['student_usernames'] is not read: the method is the
    same whatever it holds. *)
Theorem create_renders_created_group
    (w : W) (self : Handler.t) (payload : Payload.t) (r : GroupDict.t) :
  result (run svc (CreateLearnerGroupHandler_post self payload) w) = Ok r ->
  (forall l,
     CreateLearnerGroupHandler_post
       (StoryProgress := StoryProgress)
       (SubtopicPageProgress := SubtopicPageProgress)
       self (Payload.with_student_usernames l payload)
     = CreateLearnerGroupHandler_post self payload) /\
  exists ids new_id g,
    let w' :=
      store (run svc (CreateLearnerGroupHandler_post self payload) w) in
    ask svc (get_multi_user_ids_from_usernames
               (Payload.invited_student_usernames payload)) w = Ok ids /\
    exec svc (create_learner_group new_id
                (Payload.group_title payload)
                (Payload.group_description payload)
                [Handler.user_id self] ids
                (Payload.subtopic_page_ids payload)
                (Payload.story_ids payload)) w = (Ok g, w') /\
    ask svc (get_usernames (LearnerGroup.student_user_ids g)) w'
    = Ok (GroupDict.student_usernames r) /\
    ask svc (get_usernames (LearnerGroup.invited_student_user_ids g)) w'
    = Ok (GroupDict.invited_student_usernames r).
Proof.
  intros Hr. split; [reflexivity|].
  destruct (post_inv svc self payload w r Hr)
    as (ids & new_id & g & w' & Hids & _ & Hexec & Hst & _ & Hdict).
  destruct (learner_group_dict_inv svc g w' r Hdict)
    as (_ & _ & _ & _ & Hs & Hi).
  exists ids, new_id, g. cbv zeta. rewrite Hst. auto.
Qed.

End HandlerProofs.

(** ** The handlers over the reference service layer *)


Section ReferenceRuns.

Import Reference.


Lemma put_by_non_facilitator_witness :
  result (run services (LearnerGroupHandler_put as_alice payload1 "group1")
            store0)
  = Err (UnauthorizedUserException
           "You are not a facilitator of this learner group.") /\
  store (run services (LearnerGroupHandler_put as_alice payload1 "group1")
           store0) = store0.
Proof.
  destruct (put_by_non_facilitator services store0 as_alice payload1
              "group1") as (Hres & _ & _ & Hst).
  - vm_compute. reflexivity.
  - split; [exact Hres|exact Hst].
Defined.

Lemma progress_of_missing_group_witness :
  result (run services
            (LearnerGroupStudentProgressHandler_get
               as_carol ["alice"] "group9") store0)
  = Err (InvalidInputException "No such learner group exists.").
Proof.
  destruct (progress_of_missing_group services store0 as_carol ["alice"]
              "group9" [Some "uid_alice"]) as (Hres & _).
  - vm_compute. reflexivity.
  - vm_compute. reflexivity.
  - exact Hres.
Defined.

(** C2 as stated fails: the error for a missing group is the
    invalid-input one, not the not-found one. *)
Lemma progress_of_missing_group_is_invalid_input :
  ~ missing_group_is_not_found services store0 as_carol ["alice"] "group9".
Proof.
  intros H. specialize (H eq_refl). vm_compute in H. discriminate H.
Qed.

(** C1 as stated fails: [alice] is submitted as a student and resolves
    to an id and back, and the response lists no student. *)
Lemma create_ignores_student_usernames :
  ~ create_roundtrips services store0 as_carol payload1.
Proof.
  intros H.
  destruct (result (run services
                      (CreateLearnerGroupHandler_post as_carol payload1)
                      store0)) as [r|e] eqn:Hr.
  - destruct (H r Hr) as (ids & names & Hids & Hnames & Hset).
    vm_compute in Hids. injection Hids as <-.
    vm_compute in Hnames. injection Hnames as <-.
    vm_compute in Hr. injection Hr as <-.
    pose proof (proj2 (Hset (Some "alice"))
                  (list_elem_of_here (Some "alice") [])) as Hin.
    cbn in Hin. exact (not_elem_of_nil _ Hin).
  - vm_compute in Hr. discriminate Hr.
Qed.

Lemma reference_answers_hold :
  progress_services_answer services store0 ["alice"; "bob"] "group1"
    reference_answers.
Proof. repeat split; vm_compute; reflexivity. Qed.

Lemma reference_answers_aligned :
  aligned ["alice"; "bob"] reference_answers.
Proof.
  split; [reflexivity|]. split; [reflexivity|].
  intros [|[|i]] uid Hu Hp; cbn in Hu, Hp; try discriminate.
  injection Hu as <-. split; eexists; vm_compute; reflexivity.
Qed.

Lemma progress_hidden_unless_shared_witness :
  exists entries,
    result (run services
              (LearnerGroupStudentProgressHandler_get
                 as_carol ["alice"; "bob"] "group1") store0) = Ok entries /\
    entries !! 1
    = Some {| username := "bob";
              progress_sharing_is_turned_on := false;
              stories_progress := [];
              subtopic_pages_progress := [] |} /\
    progress_of (story_progress store0) ["story1"] (Some "uid_bob")
    = ["bob: 4 of 5 chapters"].
Proof.
  destruct (progress_hidden_unless_shared services store0 as_carol
              ["alice"; "bob"] "group1" reference_answers
              reference_answers_hold)
    as (Hrenders & Hent).
  destruct (Hrenders reference_answers_aligned) as (entries & Hres).
  exists entries. split; [exact Hres|]. split; [|reflexivity].
  apply (proj1 (Hent entries Hres 1 "bob" (Some "uid_bob") eq_refl eq_refl)).
  reflexivity.
Defined.

Lemma progress_entries_follow_request_witness :
  exists entries,
    result (run services
              (LearnerGroupStudentProgressHandler_get
                 as_carol ["alice"; "bob"] "group1") store0) = Ok entries /\
    length entries = 2 /\
    username <$> entries !! 0 = Some "alice" /\
    progress_sharing_is_turned_on <$> entries !! 0 = Some true.
Proof.
  destruct (progress_entries_follow_request services store0 as_carol
              ["alice"; "bob"] "group1" reference_answers
              reference_answers_hold reference_answers_aligned)
    as (entries & Hres & Hlen & Hent).
  exists entries. split; [exact Hres|]. split; [exact Hlen|].
  destruct (Hent 0 "alice" true eq_refl eq_refl) as (e & -> & <- & <-).
  split; reflexivity.
Defined.

Lemma create_renders_created_group_witness :
  exists r,
    result (run services (CreateLearnerGroupHandler_post as_carol payload1)
              store0) = Ok r /\
    CreateLearnerGroupHandler_post
      (StoryProgress := string) (SubtopicPageProgress := string)
      as_carol (Payload.with_student_usernames ["dave"] payload1)
    = CreateLearnerGroupHandler_post as_carol payload1.
Proof.
  destruct (result (run services
                      (CreateLearnerGroupHandler_post as_carol payload1)
                      store0)) as [r|e] eqn:Hr.
  - exists r. split; [reflexivity|].
    exact (proj1 (create_renders_created_group services store0 as_carol
                    payload1 r Hr) ["dave"]).
  - vm_compute in Hr. discriminate Hr.
Defined.

Lemma search_student_reports_in_band_witness :
  SearchDict.error <$>
    result_to_option
      (result (run services
                 (LearnerGroupSearchStudentHandler_get
                    PyStr.ascii_lower as_carol "zed" "group1") store0))
  = Some "User with username zed does not exist." /\
  SearchDict.error <$>
    result_to_option
      (result (run services
                 (LearnerGroupSearchStudentHandler_get
                    PyStr.ascii_lower as_carol "Carol" "group1") store0))
  = Some "You cannot invite yourself to the group".
Proof.
  split.
  - rewrite (proj1 (search_student_reports_in_band
                      services PyStr.ascii_lower store0 as_carol "zed"
                      "group1") eq_refl).
    reflexivity.
  - rewrite (proj1 (proj1 (proj2 (search_student_reports_in_band
                                    services PyStr.ascii_lower store0
                                    as_carol "Carol" "group1"))
                      carol eq_refl) eq_refl).
    reflexivity.
Defined.

(** C5 as stated fails in its last clause: when the service reports an
    invitation invalid and gives an empty message, the error field
    rendered is empty and the invitation is not valid. *)
Lemma search_student_empty_error_when_invalid :
  SearchDict.error <$>
    result_to_option
      (result (run silent_services
                 (LearnerGroupSearchStudentHandler_get
                    PyStr.ascii_lower as_carol "dave" "group1") store0))
  = Some EmptyString /\
  ~ only_valid_gives_empty_error silent_services PyStr.ascii_lower store0
      as_carol "dave" "group1".
Proof.
  split; [vm_compute; reflexivity|].
  intros H.
  destruct (H {| SearchDict.username := "dave";
                 SearchDict.profile_picture_data_url := EmptyString;
                 SearchDict.error := EmptyString |})
    as (us & error & Hus & Hinv).
  - vm_compute. reflexivity.
  - reflexivity.
  - cbn in Hinv. discriminate Hinv.
Qed.

End ReferenceRuns.

(** ** Further properties of the constants loader *)

Section ConstantsExtras.

Import PyStr Constants ConstantsSpec.

(** *** Which texts [remove_comments] changes *)

Lemma scan_length_le : forall text b,
  String.length (remove_comments_scan b text) <= String.length text.
Proof.
  induction text as [|c rest IH]; intros b; [reflexivity|].
  cbn [remove_comments_scan].
  destruct b.
  - destruct (is_LF c); simpl; rewrite IH; lia.
  - destruct (comment_matches (String c rest)); simpl.
    + rewrite IH. lia.
    + pose proof (IH false). lia.
Qed.

Lemma scan_length_lt text :
  comment_matches text = true ->
  String.length (remove_comments_scan false text) < String.length text.
Proof.
  destruct text as [|c rest]; [discriminate|]. intros Hm.
  cbn [remove_comments_scan]. rewrite Hm.
  pose proof (scan_length_le rest true). simpl. lia.
Qed.

Lemma string_drop_empty n : string_drop n EmptyString = EmptyString.
Proof. destruct n; reflexivity. Qed.

Lemma remove_comments_without_match : forall text,
  (forall i, comment_matches (string_drop i text) = false) ->
  remove_comments_scan false text = text.
Proof.
  induction text as [|c rest IH]; intros Hno; [reflexivity|].
  rewrite (scan_at_char c rest (Hno 0)).
  f_equal. apply IH. intros i. apply (Hno (S i)).
Qed.

(** X1.  [remove_comments] never lengthens a text, and it gives the text
    back unchanged exactly when the comment pattern matches at no offset
    of it. *)
Theorem remove_comments_unchanged_iff (text : string) :
  String.length (remove_comments text) <= String.length text /\
  (remove_comments text = text <->
   forall i, comment_matches (string_drop i text) = false).
Proof.
  split; [apply scan_length_le|]. unfold remove_comments.
  split; [|apply remove_comments_without_match].
  induction text as [|c rest IH]; intros Heq i.
  - rewrite string_drop_empty. reflexivity.
  - destruct (comment_matches (String c rest)) eqn:Hm.
    + apply scan_length_lt in Hm. rewrite Heq in Hm. lia.
    + destruct i as [|i]; [exact Hm|].
      rewrite (scan_at_char c rest Hm) in Heq. injection Heq as Heq.
      apply (IH Heq).
Qed.

Lemma has_newline_drop : forall i text,
  has_newline (string_drop i text) = true -> has_newline text = true.
Proof.
  induction i as [|i IH]; intros text H; [exact H|].
  destruct text as [|c rest]; [exact H|].
  simpl. rewrite (IH rest H). apply orb_true_r.
Qed.

(** X2.  A text without a newline is left as it is: a line comment that
    ends the text without a newline after it is not removed. *)
Theorem remove_comments_needs_newline (text : string) :
  has_newline text = false -> remove_comments text = text.
Proof.
  intros Hn. apply remove_comments_without_match. intros i.
  unfold comment_matches.
  destruct (has_newline (string_drop i text)) eqn:Hd.
  - apply has_newline_drop in Hd. congruence.
  - apply andb_false_r.
Qed.

Lemma remove_comments_needs_newline_witness :
  remove_comments "  MAX: 30  // characters" = "  MAX: 30  // characters".
Proof. apply remove_comments_needs_newline. reflexivity. Defined.

(** *** A comment after code *)

Lemma prefix_cons a s1 b s2 :
  String.prefix (String a s1) (String b s2)
  = Ascii.eqb a b && String.prefix s1 s2.
Proof.
  simpl. destruct (ascii_dec a b) as [->|Hne].
  - rewrite Ascii.eqb_refl. reflexivity.
  - apply Ascii.eqb_neq in Hne. rewrite Hne. reflexivity.
Qed.

Lemma append_cons c s t : String c s +:+ t = String c (s +:+ t).
Proof. reflexivity. Qed.

Lemma append_nil t : EmptyString +:+ t = t.
Proof. reflexivity. Qed.

Lemma prefix_nil_r a s : String.prefix (String a s) EmptyString = false.
Proof. reflexivity. Qed.

(** No match of the opening starts in [pre] and runs into an opening
    that follows it. *)
Lemma opening_not_straddling pre tail :
  pre <> EmptyString ->
  String.prefix comment_opening (pre +:+ comment_opening +:+ tail)
  = String.prefix comment_opening pre.
Proof.
  intros Hne. unfold comment_opening.
  destruct pre as [|c1 [|c2 [|c3 [|c4 pre]]]]; [congruence| | | |];
    rewrite ?append_cons, ?append_nil;
    rewrite ?prefix_cons, ?prefix_nil_r, ?prefix_empty;
    repeat match goal with
           | |- context [Ascii.eqb ?a ?c] =>
               is_var c; destruct (Ascii.eqb a c)
           end;
    reflexivity.
Qed.

Lemma scan_code_before_comment : forall pre tail,
  no_occurrence comment_opening pre ->
  remove_comments_scan false (pre +:+ comment_opening +:+ tail)
  = pre +:+ remove_comments_scan false (comment_opening +:+ tail).
Proof.
  induction pre as [|c pre IH]; intros tail Hno; [reflexivity|].
  change (String c pre +:+ comment_opening +:+ tail)
    with (String c (pre +:+ comment_opening +:+ tail)).
  rewrite scan_at_char.
  - change (String c pre +:+ ?x) with (String c (pre +:+ x)).
    f_equal. apply IH. intros j. apply (Hno (S j)).
  - unfold comment_matches.
    change (String c (pre +:+ comment_opening +:+ tail))
      with (String c pre +:+ comment_opening +:+ tail).
    rewrite opening_not_straddling by discriminate.
    pose proof (Hno 0) as H0. cbn [occurs_at] in H0. rewrite H0. reflexivity.
Qed.

(** X3.  A comment after code is cut from its two leading spaces through
    the end of its line, newline included, so the code before it is
    joined to the next line: when [code] holds no comment opening and
    [body] no newline, [code  //body\n rest] becomes [code] followed by
    the stripped [rest]. *)
Theorem remove_comments_joins_lines (code body rest : string) :
  no_occurrence comment_opening code ->
  has_newline body = false ->
  remove_comments (code +:+ comment_opening +:+ body +:+ String LF rest)
  = code +:+ remove_comments rest.
Proof.
  intros Hcode Hbody. unfold remove_comments.
  rewrite scan_code_before_comment by exact Hcode.
  rewrite (scan_at_comment body rest Hbody). reflexivity.
Qed.

Lemma no_occurrence_by_find s sub :
  find s sub = (-1)%Z -> no_occurrence sub s.
Proof.
  unfold find. intros H.
  destruct (find_from_cases sub s 0 ltac:(lia)) as [[_ Hno]|(k & Hf & _)].
  - exact Hno.
  - lia.
Qed.

Lemma remove_comments_joins_lines_witness :
  remove_comments
    ("  MAX: 30," +:+ comment_opening +:+ " characters"
     +:+ String LF "  MIN: 1")
  = "  MAX: 30,  MIN: 1".
Proof.
  apply (remove_comments_joins_lines "  MAX: 30," " characters" "  MIN: 1").
  - apply no_occurrence_by_find. reflexivity.
  - reflexivity.
Defined.

(** *** The text given to the JSON parser *)

Lemma substring_occurs sub : forall k t,
  occurs_at sub t k = true -> substring k (String.length sub) t = sub.
Proof.
  induction k as [|k IH]; intros t H.
  - apply String.prefix_correct. exact H.
  - destruct t as [|c t]; [discriminate H|].
    cbn [occurs_at] in H.
    change (substring k (String.length sub) t = sub).
    apply IH. exact H.
Qed.

Lemma slice_from_last t (b : nat) :
  b <= String.length t ->
  slice t (-1) (Z.of_nat b)
  = substring (String.length t - 1) (b - (String.length t - 1)) t.
Proof.
  intros Hb. unfold slice. cbv zeta.
  rewrite (slice_bound_inside _ (Z.of_nat b)) by lia.
  unfold slice_bound.
  change (-1 <? 0)%Z with true. cbv iota.
  destruct (Z.ltb_spec (-1 + Z.of_nat (String.length t)) 0).
  - assert (String.length t = 0) as -> by lia.
    destruct b; [|lia]. reflexivity.
  - destruct (Z.ltb_spec (Z.of_nat (String.length t))
                (-1 + Z.of_nat (String.length t))); [lia|].
    f_equal; lia.
Qed.

(** X4.  When the stripped text has no opening brace followed by a
    newline, the JSON parser is not given the text: it is given the one
    character [}] if the stripped text ends with it, and the empty string
    otherwise. *)
Theorem json_source_without_opening (text : string) :
  no_occurrence brace_newline (remove_comments text) ->
  json_source text
  = if occurs_at "}" (remove_comments text)
         (String.length (remove_comments text) - 1)
    then "}" else EmptyString.
Proof.
  intros Hno. unfold json_source. cbv zeta.
  set (t := remove_comments text) in *.
  unfold find, rfind. rewrite (find_from_none _ _ 0 Hno).
  destruct (rfind_from_cases "}" t 0 ltac:(lia))
    as [[Hr Hnone]|(e & Hr & He)]; rewrite Hr.
  - rewrite (Hnone (String.length t - 1)).
    change (-1 + 1)%Z with (Z.of_nat 0).
    rewrite slice_from_last by lia. apply substring_zero_length.
  - pose proof (occurs_at_bound _ _ _ (proj1 He)) as Hb. simpl in Hb.
    replace (0 + Z.of_nat e + 1)%Z with (Z.of_nat (e + 1)) by lia.
    rewrite slice_from_last by lia.
    destruct (Nat.eq_dec e (String.length t - 1)) as [->|Hne].
    + rewrite (proj1 He).
      replace (String.length t - 1 + 1 - (String.length t - 1)) with 1
        by lia.
      apply (substring_occurs "}"). exact (proj1 He).
    + rewrite (proj2 He) by lia.
      replace (e + 1 - (String.length t - 1)) with 0 by lia.
      apply substring_zero_length.
Qed.

Lemma json_source_without_opening_witness :
  json_source "export default {}" = "}" /\
  json_source "export default" = EmptyString.
Proof.
  split.
  - rewrite json_source_without_opening; [reflexivity|].
    apply no_occurrence_by_find. reflexivity.
  - rewrite json_source_without_opening; [reflexivity|].
    apply no_occurrence_by_find. reflexivity.
Defined.

Lemma occurs_at_append sub a : forall b k,
  occurs_at sub (a +:+ b) (String.length a + k) = occurs_at sub b k.
Proof.
  induction a as [|c a IH]; intros b k; [reflexivity|].
  rewrite append_cons. cbn [String.length Nat.add occurs_at]. apply IH.
Qed.

(** No match of the brace line starts in [pre] and runs into a brace
    line that follows it. *)
Lemma brace_newline_not_straddling pre tail :
  pre <> EmptyString ->
  String.prefix brace_newline (pre +:+ brace_newline +:+ tail)
  = String.prefix brace_newline pre.
Proof.
  intros Hne. unfold brace_newline.
  destruct pre as [|c1 [|c2 pre]]; [congruence| |];
    rewrite ?append_cons, ?append_nil;
    rewrite ?prefix_cons, ?prefix_nil_r, ?prefix_empty;
    repeat match goal with
           | |- context [Ascii.eqb ?a ?c] =>
               is_var c; destruct (Ascii.eqb a c)
           end;
    reflexivity.
Qed.

Lemma first_brace_newline_after : forall pre tail,
  no_occurrence brace_newline pre ->
  first_occurrence brace_newline (pre +:+ brace_newline +:+ tail)
    (String.length pre).
Proof.
  intros pre tail Hno. split.
  - rewrite <- (Nat.add_0_r (String.length pre)), occurs_at_append.
    apply prefix_append.
  - revert Hno. induction pre as [|c pre IH]; intros Hno j Hj;
      [simpl in Hj; lia|].
    destruct j as [|j].
    + cbn [occurs_at]. rewrite brace_newline_not_straddling by discriminate.
      apply (Hno 0).
    + rewrite append_cons. cbn [occurs_at]. apply IH.
      * intros i. apply (Hno (S i)).
      * simpl in Hj. lia.
Qed.

Lemma last_brace_before : forall head post,
  no_occurrence "}" post ->
  last_occurrence "}" (head +:+ "}" +:+ post) (String.length head).
Proof.
  intros head post Hno. split.
  - rewrite <- (Nat.add_0_r (String.length head)), occurs_at_append.
    apply (prefix_append "}").
  - intros j Hj.
    replace j with (String.length head + S (j - String.length head - 1))
      by lia.
    rewrite occurs_at_append. rewrite append_cons. cbn [occurs_at].
    rewrite append_nil. apply Hno.
Qed.

Lemma substring_middle a b : forall c,
  substring (String.length a) (String.length b) (a +:+ b +:+ c) = b.
Proof.
  induction a as [|x a IH]; intros c.
  - rewrite append_nil. apply String.prefix_correct. apply prefix_append.
  - rewrite append_cons. cbn [String.length substring]. apply IH.
Qed.

Lemma append_assoc a : forall b c, (a +:+ b) +:+ c = a +:+ b +:+ c.
Proof.
  induction a as [|x a IH]; intros b c; [reflexivity|].
  rewrite !append_cons, IH. reflexivity.
Qed.

(** X5.  For an asset laid out as a header without a brace line, then an
    opening brace and a newline, a body, a closing brace, and a trailer
    without a closing brace, the JSON parser is given exactly the part
    from the opening brace to the closing brace, whatever braces the body
    holds. *)
Theorem json_source_of_asset (text pre body post : string) :
  remove_comments text
  = pre +:+ brace_newline +:+ body +:+ "}" +:+ post ->
  no_occurrence brace_newline pre ->
  no_occurrence "}" post ->
  json_source text = brace_newline +:+ body +:+ "}".
Proof.
  intros Ht Hpre Hpost.
  assert (Hs : first_occurrence brace_newline (remove_comments text)
                 (String.length pre)).
  { rewrite Ht. apply first_brace_newline_after. exact Hpre. }
  assert (He : last_occurrence "}" (remove_comments text)
                 (String.length (pre +:+ brace_newline +:+ body))).
  { rewrite Ht.
    replace (pre +:+ brace_newline +:+ body +:+ "}" +:+ post)
      with ((pre +:+ brace_newline +:+ body) +:+ "}" +:+ post)
      by (rewrite !append_assoc; reflexivity).
    apply last_brace_before. exact Hpost. }
  rewrite (proj1 (json_source_from_opening text _ Hs) _ He), Ht.
  replace (String.length (pre +:+ brace_newline +:+ body) + 1
           - String.length pre)
    with (String.length (brace_newline +:+ body +:+ "}"))
    by (rewrite !length_append; simpl; lia).
  replace (pre +:+ brace_newline +:+ body +:+ "}" +:+ post)
    with (pre +:+ (brace_newline +:+ body +:+ "}") +:+ post)
    by (rewrite !append_assoc; reflexivity).
  apply substring_middle.
Qed.

Lemma json_source_of_asset_witness :
  json_source sample_ts
  = brace_newline +:+ "  MAX: 30,  MIN: 1" +:+ String LF "}".
Proof.
  apply (json_source_of_asset sample_ts
           (line "// Shared constants." +:+ "export default ")
           ("  MAX: 30,  MIN: 1" +:+ String LF EmptyString)
           (line " as const;")).
  - reflexivity.
  - apply no_occurrence_by_find. reflexivity.
  - apply no_occurrence_by_find. reflexivity.
Defined.

(** *** Reading the file and the table *)

(** X6.  [get_package_file_contents] returns a text exactly when the
    direct read gives it, or the direct read raises the file-not-found
    error and the packaged data decodes to it; any other error of the
    direct read is raised as it is, without a packaged read; and packaged
    data that does not decode raises the decoding error. *)
Theorem get_package_file_contents_outcomes
    (rt : Runtime) (package filepath : string) :
  let direct := io_open_read rt (os_path_join package filepath) in
  (forall s,
     get_package_file_contents rt package filepath = Ok s <->
     direct = Ok s \/
     (raises_file_not_found direct /\
      exists data,
        pkgutil_get_data rt package filepath = Ok (Some data) /\
        utf8_decode rt data = Some s)) /\
  (forall e,
     direct = Err e -> ~ raises_file_not_found direct ->
     get_package_file_contents rt package filepath = Err e) /\
  (forall data,
     raises_file_not_found direct ->
     pkgutil_get_data rt package filepath = Ok (Some data) ->
     utf8_decode rt data = None ->
     get_package_file_contents rt package filepath = Err UnicodeDecodeError).
Proof.
  cbv zeta. unfold get_package_file_contents, raises_file_not_found,
    bytes_decode.
  destruct (io_open_read rt (os_path_join package filepath)) as [c|e].
  - split; [|split].
    + intros s. split; [intros [= <-]; auto|].
      intros [[= <-]|[[f Hf] _]]; [reflexivity|discriminate].
    + discriminate.
    + intros data [f Hf]. discriminate.
  - split; [|split].
    + intros s. split.
      * destruct e; try discriminate.
        destruct (pkgutil_get_data rt package filepath) as [[data|]|e'];
          [|discriminate|discriminate].
        destruct (utf8_decode rt data) as [s'|] eqn:Hd; [|discriminate].
        intros [= <-]. right. split; [eexists; reflexivity|].
        exists data. auto.
      * intros [H|([f [= ->]] & data & -> & ->)]; [discriminate|reflexivity].
    + intros e' [= <-] Hnot. destruct e; try reflexivity.
      exfalso. apply Hnot. eexists. reflexivity.
    + intros data [f [= ->]] -> ->. reflexivity.
Qed.

Lemma get_package_file_contents_outcomes_witness :
  get_package_file_contents sample_runtime "assets" "release_constants.json"
  = Ok "{}" /\
  get_package_file_contents
    {| io_open_read := fun _ => Err (OSError "Permission denied");
       pkgutil_get_data := fun _ _ => Ok (Some [x7b; x7d]);
       utf8_decode := utf8_decode sample_runtime |}
    "assets" "constants.ts"
  = Err (OSError "Permission denied").
Proof.
  split.
  - apply (proj1 (get_package_file_contents_outcomes
                    sample_runtime "assets" "release_constants.json")).
    left. reflexivity.
  - apply (proj1 (proj2 (get_package_file_contents_outcomes _ _ _))).
    + reflexivity.
    + intros [f Hf]. discriminate Hf.
Defined.

(** X7.  Setting an attribute of a [Constants] table changes that key
    alone: every other key reads as before, by item and by attribute, and
    a second setting of the key replaces the first.  The value set is read
    back by attribute unless the name is one the class provides, in which
    case the attribute stays the class's and only item access sees the
    value. *)
Theorem constants_setattr_frame
    {V} (class_attribute : string -> bool) (d : gmap string V)
    (k : string) (v : V) :
  (forall k', k <> k' ->
     getitem (setattr d k v) k' = getitem d k' /\
     getattr class_attribute (setattr d k v) k'
     = getattr class_attribute d k') /\
  (forall v', setattr (setattr d k v) k v' = setattr d k v') /\
  getattr class_attribute (setattr d k v) k
  = (if class_attribute k then Ok (ClassAttribute k) else Ok (Item v)).
Proof.
  unfold getattr, Constants__getattr__, setattr, Constants__setattr__,
    setitem, getitem.
  split; [|split].
  - intros k' Hne. rewrite lookup_insert_ne by exact Hne. auto.
  - intros v'. apply insert_insert_eq.
  - rewrite lookup_insert_eq. destruct (class_attribute k); reflexivity.
Qed.

Lemma constants_setattr_frame_witness :
  getattr cpython_class_attribute
    (setattr ({[ "MAX" := 30 ]} : gmap string nat) "MIN" 1) "MAX"
  = Ok (Item 30) /\
  getattr cpython_class_attribute
    (setattr ({[ "MAX" := 30 ]} : gmap string nat) "values" 1) "values"
  = Ok (ClassAttribute "values").
Proof.
  split.
  - rewrite (proj2 (proj1 (constants_setattr_frame cpython_class_attribute
                             {[ "MAX" := 30 ]} "MIN" 1) "MAX"
                      ltac:(discriminate))).
    reflexivity.
  - rewrite (proj2 (proj2 (constants_setattr_frame cpython_class_attribute
                             {[ "MAX" := 30 ]} "values" 1))).
    reflexivity.
Defined.

End ConstantsExtras.

(** ** Further properties of the handlers *)

Section HandlerExtras.

Context {StoryProgress SubtopicPageProgress W : Type}.
Context (svc : Services StoryProgress SubtopicPageProgress W).

(** *** Handlers that only read *)

Lemma reads_only_bind {A B}
    (p : Prog StoryProgress SubtopicPageProgress A)
    (f : A -> Prog StoryProgress SubtopicPageProgress B) :
  reads_only p -> (forall a, reads_only (f a)) -> reads_only (prog_bind f p).
Proof.
  intros Hp Hf. induction Hp as [r|e|q k _ IH]; cbn.
  - apply Hf.
  - constructor.
  - constructor. exact IH.
Qed.

Lemma reads_only_lift {A} (r : Result A) :
  reads_only (lift_result (StoryProgress := StoryProgress)
                (SubtopicPageProgress := SubtopicPageProgress) r).
Proof. destruct r; constructor. Qed.

Lemma reads_only_calls {R} (p : Prog StoryProgress SubtopicPageProgress R) :
  reads_only p ->
  forall w,
    forallb (fun ev => negb (is_mutation ev)) (calls (run svc p w)) = true.
Proof.
  induction 1 as [r|e|q k _ IH]; intros w; cbn; try reflexivity.
  destruct (ask svc q w) as [x|e]; cbn; [apply IH|reflexivity].
Qed.

Lemma progress_get_reads_only self usernames gid :
  reads_only (LearnerGroupStudentProgressHandler_get
                (StoryProgress := StoryProgress)
                (SubtopicPageProgress := SubtopicPageProgress)
                self usernames gid).
Proof.
  unfold LearnerGroupStudentProgressHandler_get.
  repeat first
    [ apply reads_only_lift
    | apply reads_only_bind
    | constructor
    | intros [?|]
    | intro ].
Qed.

Lemma search_get_reads_only str_lower self username gid :
  reads_only (LearnerGroupSearchStudentHandler_get
                (StoryProgress := StoryProgress)
                (SubtopicPageProgress := SubtopicPageProgress)
                str_lower self username gid).
Proof.
  unfold LearnerGroupSearchStudentHandler_get.
  apply reads_only_bind; [repeat constructor|].
  intros [us|]; [|constructor].
  destruct (String.eqb _ _); [constructor|].
  apply reads_only_bind; [repeat constructor|].
  intros [[|] err]; constructor.
Qed.

(** X8.  The two GET handlers of learners' data, the progress view and the
    student search, call no write of the service layer and leave the
    datastore as it was, whatever the services answer or raise. *)
Theorem get_handlers_leave_store
    (str_lower : string -> string)
    (w : W) (self : Handler.t) (usernames : list string)
    (username gid : string) :
  (let o := run svc (LearnerGroupStudentProgressHandler_get
                       self usernames gid) w in
   store o = w /\ Forall (fun ev => is_mutation ev = false) (calls o)) /\
  (let o := run svc (LearnerGroupSearchStudentHandler_get
                       str_lower self username gid) w in
   store o = w /\ Forall (fun ev => is_mutation ev = false) (calls o)).
Proof.
  assert (Hall : forall l,
            forallb (fun ev => negb (is_mutation ev)) l = true ->
            Forall (fun ev => is_mutation ev = false) l).
  { intros l H. apply Forall_forall. intros ev Hin.
    rewrite forallb_forall in H. apply list_elem_of_In in Hin.
    specialize (H ev Hin). destruct (is_mutation ev); [discriminate|auto]. }
  split; cbv zeta.
  - pose proof (reads_only_calls _ (progress_get_reads_only self usernames gid)
                  w) as H.
    split; [apply run_store_unchanged; exact H|apply Hall; exact H].
  - pose proof (reads_only_calls _
                  (search_get_reads_only str_lower self username gid) w)
      as H.
    split; [apply run_store_unchanged; exact H|apply Hall; exact H].
Qed.

(** *** Writes and the facilitator check *)

Lemma learner_group_dict_reads_only (g : LearnerGroup.t) :
  reads_only (learner_group_dict
                (StoryProgress := StoryProgress)
                (SubtopicPageProgress := SubtopicPageProgress) g).
Proof.
  unfold learner_group_dict.
  repeat first [apply reads_only_bind | constructor | intro].
Qed.

Lemma reads_only_no_write {R}
    (p : Prog StoryProgress SubtopicPageProgress R) w c :
  reads_only p -> Executed c ∉ calls (run svc p w).
Proof.
  intros Hp Hin. pose proof (reads_only_calls p Hp w) as H.
  rewrite forallb_forall in H. apply list_elem_of_In in Hin.
  specialize (H _ Hin). discriminate H.
Qed.

(** X9.  Whatever the services answer, a write that PUT or DELETE makes
    comes after the facilitator check answered true for the caller and
    the group: the only write of PUT is the update of that group with the
    caller as facilitator, the only write of DELETE the removal of that
    group. *)
Theorem writes_follow_facilitator_check
    (w : W) (self : Handler.t) (payload : Payload.t) (gid : string)
    (c : Command) :
  (Executed c ∈ calls (run svc (LearnerGroupHandler_put self payload gid) w) ->
   ask svc (is_user_facilitator (Handler.user_id self) gid) w = Ok true /\
   exists student_ids invited_ids,
     c = update_learner_group gid
           (Payload.group_title payload)
           (Payload.group_description payload)
           [Handler.user_id self] student_ids invited_ids
           (Payload.subtopic_page_ids payload)
           (Payload.story_ids payload)) /\
  (Executed c ∈ calls (run svc (LearnerGroupHandler_delete self gid) w) ->
   ask svc (is_user_facilitator (Handler.user_id self) gid) w = Ok true /\
   c = remove_learner_group gid).
Proof.
  split.
  - unfold LearnerGroupHandler_put.
    pose proof learner_group_dict_reads_only as Hdict.
    set (dict := @learner_group_dict StoryProgress SubtopicPageProgress)
      in *.
    clearbody dict. cbn.
    destruct (ask svc (is_user_facilitator (Handler.user_id self) gid) w)
      as [[|]|]; cbn;
      [|intros H; repeat (apply elem_of_cons in H as [H|H];
                          [discriminate H|]); inversion H..].
    destruct (ask svc (get_multi_user_ids_from_usernames
                         (Payload.student_usernames payload)) w)
      as [sids|]; cbn;
      [|intros H; repeat (apply elem_of_cons in H as [H|H];
                          [discriminate H|]); inversion H].
    destruct (ask svc (get_multi_user_ids_from_usernames
                         (Payload.invited_student_usernames payload)) w)
      as [iids|]; cbn;
      [|intros H; repeat (apply elem_of_cons in H as [H|H];
                          [discriminate H|]); inversion H].
    destruct (exec svc _ w) as [[g|] w'] eqn:Hexec; cbn.
    + intros H. repeat (apply elem_of_cons in H as [H|H];
                        [try discriminate H|]).
      * injection H as ->. split; [reflexivity|]. exists sids, iids. auto.
      * exfalso. revert H. apply reads_only_no_write. apply Hdict.
    + intros H. repeat (apply elem_of_cons in H as [H|H];
                        [try discriminate H|]).
      * injection H as ->. split; [reflexivity|]. exists sids, iids. auto.
      * inversion H.
  - unfold LearnerGroupHandler_delete. cbn.
    destruct (ask svc (is_user_facilitator (Handler.user_id self) gid) w)
      as [[|]|]; cbn;
      [|intros H; repeat (apply elem_of_cons in H as [H|H];
                          [discriminate H|]); inversion H..].
    destruct (exec svc _ w) as [[[]|] w']; cbn;
      intros H; repeat (apply elem_of_cons in H as [H|H];
                        [try discriminate H|]);
      try (injection H as ->; auto); inversion H.
Qed.

(** X10.  DELETE by a caller whom the service does not report as a
    facilitator raises the unauthorized-user error after the check alone
    and removes nothing; by a facilitator it makes the removal its one
    write and, when the removal returns, renders success on the store the
    removal left. *)
Theorem delete_outcomes (w : W) (self : Handler.t) (gid : string) :
  let o := run svc (LearnerGroupHandler_delete self gid) w in
  (ask svc (is_user_facilitator (Handler.user_id self) gid) w = Ok false ->
   result o
   = Err (UnauthorizedUserException
            ("You do not have the rights to delete this learner group as "
             +:+ "you are not its facilitator.")) /\
   calls o = [Asked (is_user_facilitator (Handler.user_id self) gid)] /\
   store o = w) /\
  (ask svc (is_user_facilitator (Handler.user_id self) gid) w = Ok true ->
   calls o = [Asked (is_user_facilitator (Handler.user_id self) gid);
              Executed (remove_learner_group gid)] /\
   store o = snd (exec svc (remove_learner_group gid) w) /\
   (forall w', exec svc (remove_learner_group gid) w = (Ok tt, w') ->
               result o = Ok true)).
Proof.
  cbv zeta. unfold LearnerGroupHandler_delete. cbn. split; intros ->; cbn.
  - repeat split.
  - destruct (exec svc (remove_learner_group gid) w) as [[[]|e] w']; cbn.
    + repeat split.
    + repeat split. intros w'' H. discriminate H.
Qed.

(** X11.  A PUT that renders resolved the submitted student usernames and
    then the invited ones, gave both id lists to the update of the group,
    and rendered the group the update returned: its id, title,
    description and syllabus as returned, and its three user lists as
    usernames the service has for them after the update. *)
Theorem put_renders_updated_group
    (w : W) (self : Handler.t) (payload : Payload.t) (gid : string)
    (r : GroupDict.t) :
  result (run svc (LearnerGroupHandler_put self payload gid) w) = Ok r ->
  exists student_ids invited_ids g,
    let w' := store (run svc (LearnerGroupHandler_put self payload gid) w) in
    ask svc (get_multi_user_ids_from_usernames
               (Payload.student_usernames payload)) w = Ok student_ids /\
    ask svc (get_multi_user_ids_from_usernames
               (Payload.invited_student_usernames payload)) w
    = Ok invited_ids /\
    exec svc (update_learner_group gid
                (Payload.group_title payload)
                (Payload.group_description payload)
                [Handler.user_id self] student_ids invited_ids
                (Payload.subtopic_page_ids payload)
                (Payload.story_ids payload)) w = (Ok g, w') /\
    exists fs ss ns,
      ask svc (get_usernames (LearnerGroup.facilitator_user_ids g)) w'
      = Ok fs /\
      ask svc (get_usernames (LearnerGroup.student_user_ids g)) w' = Ok ss /\
      ask svc (get_usernames (LearnerGroup.invited_student_user_ids g)) w'
      = Ok ns /\
      r = {| GroupDict.id := LearnerGroup.group_id g;
             GroupDict.title := LearnerGroup.title g;
             GroupDict.description := LearnerGroup.description g;
             GroupDict.facilitator_usernames := fs;
             GroupDict.student_usernames := ss;
             GroupDict.invited_student_usernames := ns;
             GroupDict.subtopic_page_ids := LearnerGroup.subtopic_page_ids g;
             GroupDict.story_ids := LearnerGroup.story_ids g |}.
Proof.
  intros Hr.
  destruct (put_inv svc self payload gid w r Hr)
    as (sids & iids & g & w' & _ & Hs & Hi & Hexec & Hst & _ & Hdict).
  exists sids, iids, g. cbv zeta. rewrite Hst.
  split; [exact Hs|]. split; [exact Hi|]. split; [exact Hexec|].
  revert Hdict. unfold learner_group_dict. cbn.
  destruct (ask svc (get_usernames (LearnerGroup.facilitator_user_ids g)) w')
    as [fs|]; [|discriminate].
  destruct (ask svc (get_usernames (LearnerGroup.student_user_ids g)) w')
    as [ss|]; [|discriminate].
  destruct (ask svc
              (get_usernames (LearnerGroup.invited_student_user_ids g)) w')
    as [ns|]; [|discriminate].
  cbn. intros [= <-]. exists fs, ss, ns. auto.
Qed.

(** *** The progress view: who is asked about, and how it fails *)

Lemma students_sharing_elem : forall perms ids uid,
  uid ∈ students_sharing perms ids ->
  exists i, ids !! i = Some uid /\ perms !! i = Some true.
Proof.
  induction perms as [|b perms IH]; intros ids uid H;
    [destruct ids; inversion H|].
  destruct ids as [|u ids]; [inversion H|].
  cbn [students_sharing] in H. destruct b.
  - apply elem_of_cons in H as [->|H].
    + exists 0. auto.
    + destruct (IH ids uid H) as (i & Hi & Hp). exists (S i). auto.
  - destruct (IH ids uid H) as (i & Hi & Hp). exists (S i). auto.
Qed.

(** X12.  The progress view asks the story and subtopic progress services
    only about students whose sharing permission is on: the user ids in
    either question are those at the positions where the permission
    answer is true, in request order. *)
Theorem progress_asked_only_for_sharing
    (w : W) (self : Handler.t) (usernames : list string) (gid : string)
    (ids : list user_id) (items : list string) :
  let o := run svc (LearnerGroupStudentProgressHandler_get
                      self usernames gid) w in
  Asked (get_multi_users_progress_in_stories ids items) ∈ calls o \/
  Asked (get_multi_users_subtopic_pages_progress ids items) ∈ calls o ->
  exists all_ids perms,
    ask svc (get_multi_user_ids_from_usernames usernames) w = Ok all_ids /\
    ask svc (can_multi_students_share_progress all_ids gid) w = Ok perms /\
    ids = students_sharing perms all_ids /\
    forall uid, uid ∈ ids ->
      exists i, all_ids !! i = Some uid /\ perms !! i = Some true.
Proof.
  cbv zeta. unfold LearnerGroupStudentProgressHandler_get. cbn.
  destruct (ask svc (get_multi_user_ids_from_usernames usernames) w)
    as [all_ids|] eqn:Hids; cbn.
  2: { intros [H|H]; repeat (apply elem_of_cons in H as [H|H];
                              [discriminate H|]); inversion H. }
  destruct (ask svc (get_learner_group_by_id gid) w) as [[g|]|]; cbn.
  2,3: intros [H|H]; repeat (apply elem_of_cons in H as [H|H];
                             [discriminate H|]); inversion H.
  destruct (ask svc (can_multi_students_share_progress all_ids gid) w)
    as [perms|] eqn:Hperms; cbn.
  2: { intros [H|H]; repeat (apply elem_of_cons in H as [H|H];
                              [discriminate H|]); inversion H. }
  destruct (collect_sharing_on perms 0 all_ids []) as [on|] eqn:Hon; cbn.
  2: { intros [H|H]; repeat (apply elem_of_cons in H as [H|H];
                              [discriminate H|]); inversion H. }
  pose proof (collect_sharing_on_inv all_ids [] perms [] on Hon) as Hle.
  pose proof (collect_sharing_on_aligned all_ids [] perms [] Hle) as Hal.
  cbn [app length] in Hal. rewrite Hal in Hon. injection Hon as <-.
  assert (Hgoal : forall ids',
            ids' = students_sharing perms all_ids ->
            exists all_ids' perms',
              Ok all_ids = Ok all_ids' /\
              ask svc (can_multi_students_share_progress all_ids' gid) w
              = Ok perms' /\
              ids' = students_sharing perms' all_ids' /\
              forall uid, uid ∈ ids' ->
                exists i, all_ids' !! i = Some uid /\ perms' !! i = Some true).
  { intros ids' ->. exists all_ids, perms.
    split; [reflexivity|]. split; [exact Hperms|]. split; [reflexivity|].
    apply students_sharing_elem. }
  destruct (ask svc (get_multi_users_progress_in_stories _ _) w)
    as [sp|]; cbn.
  2: { intros [H|H]; repeat (apply elem_of_cons in H as [H|H];
                              [try discriminate H|]);
       try (injection H as -> ->; apply Hgoal; reflexivity); inversion H. }
  destruct (ask svc (get_multi_users_subtopic_pages_progress _ _) w)
    as [sbp|]; cbn.
  2: { intros [H|H]; repeat (apply elem_of_cons in H as [H|H];
                              [try discriminate H|]);
       try (injection H as -> ->; apply Hgoal; reflexivity); inversion H. }
  destruct (collect_progress usernames perms sp sbp 0 all_ids []); cbn;
    intros [H|H]; repeat (apply elem_of_cons in H as [H|H];
                          [try discriminate H|]);
    try (injection H as -> ->; apply Hgoal; reflexivity); inversion H.
Qed.

Lemma collect_sharing_on_err : forall ids pre perms acc e,
  collect_sharing_on (pre ++ perms) (length pre) ids acc = Err e ->
  e = IndexError /\ length perms < length ids.
Proof.
  induction ids as [|uid ids IH]; intros pre perms acc e H;
    [discriminate H|].
  destruct perms as [|b perms]; cbn [collect_sharing_on] in H;
    unfold list_getitem in H.
  - rewrite app_nil_r, lookup_ge_None_2 in H by lia.
    injection H as <-. simpl. split; [reflexivity|lia].
  - rewrite list_lookup_middle in H by reflexivity.
    cbn [result_bind] in H.
    replace (pre ++ b :: perms) with ((pre ++ [b]) ++ perms) in H
      by (rewrite <- app_assoc; reflexivity).
    replace (S (length pre)) with (length (pre ++ [b])) in H
      by (rewrite length_app; simpl; lia).
    apply IH in H as [-> Hlt]. simpl. split; [reflexivity|lia].
Qed.

Lemma entry_err (names : list string) (perms : list bool)
    (sp : gmap (option string) (list StoryProgress))
    (sbp : gmap (option string) (list SubtopicPageProgress))
    (i : nat) (uid : user_id) (e : exn) :
  student_progress_entry names perms sp sbp i uid = Err e ->
  (names !! i = None /\ e = IndexError) \/
  (perms !! i = None /\ e = IndexError) \/
  (perms !! i = Some true /\
   (sp !! uid = None \/ sbp !! uid = None) /\ e = key_error uid).
Proof.
  unfold student_progress_entry, list_getitem, dict_getitem, key_error.
  destruct (names !! i) as [name|]; cbn; [|intros [= <-]; auto].
  destruct (perms !! i) as [[|]|]; cbn; [|discriminate|intros [= <-]; auto].
  destruct (sp !! uid) as [s|]; cbn.
  - destruct (sbp !! uid) as [p|]; cbn; [discriminate|].
    intros [= <-]. right. right. auto.
  - intros [= <-]. right. right. auto.
Qed.

Lemma collect_progress_err (names : list string) (perms : list bool)
    (sp : gmap (option string) (list StoryProgress))
    (sbp : gmap (option string) (list SubtopicPageProgress)) :
  forall ids i acc e,
    collect_progress names perms sp sbp i ids acc = Err e ->
    exists j uid,
      ids !! j = Some uid /\
      student_progress_entry names perms sp sbp (i + j) uid = Err e.
Proof.
  induction ids as [|uid ids IH]; intros i acc e H; [discriminate H|].
  cbn [collect_progress] in H.
  destruct (student_progress_entry names perms sp sbp i uid)
    as [en|e'] eqn:He; cbn [result_bind] in H.
  - destruct (IH (S i) _ e H) as (j & u & Hj & Hu).
    exists (S j), u. split; [exact Hj|].
    replace (i + S j) with (S i + j) by lia. exact Hu.
  - injection H as <-. exists 0, uid. rewrite Nat.add_0_r. auto.
Qed.

(** X13.  When the services answer, the progress view fails only on a
    lookup of its own, and for one of three reasons at some requested
    position: the permission answer has no entry there, or the request has
    no username there (both an index error), or the permission is on and
    one of the two progress dicts lacks the student's id (a key error for
    that id). *)
Theorem progress_failures
    (w : W) (self : Handler.t) (usernames : list string) (gid : string)
    (a : ProgressAnswers StoryProgress SubtopicPageProgress) (e : exn) :
  progress_services_answer svc w usernames gid a ->
  result (run svc (LearnerGroupStudentProgressHandler_get
                     self usernames gid) w) = Err e ->
  exists i uid,
    resolved_ids a !! i = Some uid /\
    ((permissions a !! i = None /\ e = IndexError) \/
     (usernames !! i = None /\ e = IndexError) \/
     (permissions a !! i = Some true /\
      (stories a !! uid = None \/ pages a !! uid = None) /\
      e = key_error uid)).
Proof.
  intros (Hids & Hg & Hperms & Hsp & Hsbp).
  unfold LearnerGroupStudentProgressHandler_get. cbn.
  rewrite Hids. cbn. rewrite Hg. cbn. rewrite Hperms. cbn.
  destruct (collect_sharing_on (permissions a) 0 (resolved_ids a) [])
    as [on|e'] eqn:Hon; cbn.
  - pose proof (collect_sharing_on_inv
                  (resolved_ids a) [] (permissions a) [] on Hon) as Hle.
    pose proof (collect_sharing_on_aligned
                  (resolved_ids a) [] (permissions a) [] Hle) as Hal.
    cbn [app length] in Hal. rewrite Hal in Hon. injection Hon as <-.
    rewrite Hsp. cbn. rewrite Hsbp. cbn.
    destruct (collect_progress usernames (permissions a) (stories a)
                (pages a) 0 (resolved_ids a) []) as [all|e'] eqn:Hall;
      cbn; [discriminate|].
    intros [= <-].
    destruct (collect_progress_err _ _ _ _ _ _ _ _ Hall)
      as (j & uid & Hj & He).
    exists j, uid. split; [exact Hj|].
    cbn [Nat.add] in He. apply entry_err in He as [H|[H|H]]; auto.
  - intros [= <-].
    destruct (collect_sharing_on_err
                (resolved_ids a) [] (permissions a) [] e' Hon) as [-> Hlt].
    destruct (lookup_lt_is_Some_2 (resolved_ids a) (length (permissions a))
                Hlt) as [uid Hu].
    exists (length (permissions a)), uid. split; [exact Hu|].
    left. split; [|reflexivity]. apply lookup_ge_None_2. lia.
Qed.

(** *** The student search: what is asked and what is shown *)

(** X14.  The student search renders a profile picture only for a valid
    invitation, and then the one of the user found; and it asks the
    invitation service only about a user that exists and is not the
    caller (their usernames differ after [str.lower]), with that user's
    stored id and username and the group id of the request. *)
Theorem search_shows_picture_only_if_valid
    (str_lower : string -> string)
    (w : W) (self : Handler.t) (username gid : string) :
  let o := run svc (LearnerGroupSearchStudentHandler_get
                      str_lower self username gid) w in
  (forall r,
     result o = Ok r ->
     SearchDict.profile_picture_data_url r <> EmptyString ->
     exists us error,
       ask svc (get_user_settings_from_username username) w = Ok (Some us) /\
       ask svc (can_user_be_invited (UserSettings.user_id us)
                  (UserSettings.username us) gid) w = Ok (true, error) /\
       SearchDict.profile_picture_data_url r
       = UserSettings.profile_picture_data_url us) /\
  (forall uid name g',
     Asked (can_user_be_invited uid name g') ∈ calls o ->
     exists us,
       ask svc (get_user_settings_from_username username) w = Ok (Some us) /\
       str_lower (Handler.username self) <> str_lower username /\
       uid = UserSettings.user_id us /\
       name = UserSettings.username us /\ g' = gid).
Proof.
  cbv zeta. unfold LearnerGroupSearchStudentHandler_get. cbn.
  destruct (ask svc (get_user_settings_from_username username) w)
    as [[us|]|e0]; cbn.
  - destruct (String.eqb (str_lower (Handler.username self))
                         (str_lower username)) eqn:Hself; cbn.
    + split.
      * intros r [= <-] Hpic. contradiction.
      * intros uid name g' H.
        repeat (apply elem_of_cons in H as [H|H]; [discriminate H|]).
        inversion H.
    + apply String.eqb_neq in Hself.
      destruct (ask svc (can_user_be_invited (UserSettings.user_id us)
                           (UserSettings.username us) gid) w)
        as [[[|] error]|e1] eqn:Hinv; cbn.
      * split.
        -- intros r [= <-] _. exists us, error. auto.
        -- intros uid name g' H.
           repeat (apply elem_of_cons in H as [H|H]; [try discriminate H|]);
             [|inversion H].
           injection H as -> -> ->. exists us. auto.
      * split.
        -- intros r [= <-] Hpic. contradiction.
        -- intros uid name g' H.
           repeat (apply elem_of_cons in H as [H|H]; [try discriminate H|]);
             [|inversion H].
           injection H as -> -> ->. exists us. auto.
      * split; [discriminate|].
        intros uid name g' H.
        repeat (apply elem_of_cons in H as [H|H]; [try discriminate H|]);
          [|inversion H].
        injection H as -> -> ->. exists us. auto.
  - split.
    + intros r [= <-] Hpic. contradiction.
    + intros uid name g' H.
      repeat (apply elem_of_cons in H as [H|H]; [discriminate H|]).
      inversion H.
  - split; [discriminate|].
    intros uid name g' H.
    repeat (apply elem_of_cons in H as [H|H]; [discriminate H|]).
    inversion H.
Qed.

End HandlerExtras.

Section ExtraRuns.

Import Reference.

Lemma writes_follow_facilitator_check_witness :
  ask services (is_user_facilitator (Some "uid_carol") "group1") store0
  = Ok true.
Proof.
  apply (proj2 (writes_follow_facilitator_check services store0 as_carol
                  payload1 "group1" (remove_learner_group "group1"))).
  apply list_elem_of_In. vm_compute. right. left. reflexivity.
Defined.

Lemma delete_outcomes_witness :
  store (run services (LearnerGroupHandler_delete as_alice "group1") store0)
  = store0 /\
  result (run services (LearnerGroupHandler_delete as_carol "group1") store0)
  = Ok true.
Proof.
  split.
  - apply (proj1 (delete_outcomes services store0 as_alice "group1")).
    vm_compute. reflexivity.
  - apply (proj2 (proj2 (proj2 (delete_outcomes services store0 as_carol
                                  "group1") eq_refl))
             (with_groups (delete "group1" (groups store0)) store0)).
    reflexivity.
Defined.

Lemma put_renders_updated_group_witness :
  exists r,
    result (run services (LearnerGroupHandler_put as_carol payload1 "group1")
              store0) = Ok r /\
    exists student_ids invited_ids g,
      fst (exec services
             (update_learner_group "group1"
                (Payload.group_title payload1)
                (Payload.group_description payload1)
                [Handler.user_id as_carol] student_ids invited_ids
                (Payload.subtopic_page_ids payload1)
                (Payload.story_ids payload1)) store0) = Ok g /\
      GroupDict.id r = LearnerGroup.group_id g.
Proof.
  destruct (result (run services
                      (LearnerGroupHandler_put as_carol payload1 "group1")
                      store0)) as [r|e] eqn:Hr.
  - exists r. split; [reflexivity|].
    destruct (put_renders_updated_group services store0 as_carol payload1
                "group1" r Hr)
      as (sids & iids & g & _ & _ & Hexec & fs & ss & ns & _ & _ & _ & ->).
    exists sids, iids, g.
    rewrite Hexec. split; reflexivity.
  - vm_compute in Hr. discriminate Hr.
Defined.

Lemma progress_asked_only_for_sharing_witness :
  exists all_ids perms,
    ask services (get_multi_user_ids_from_usernames ["alice"; "bob"]) store0
    = Ok all_ids /\
    ask services (can_multi_students_share_progress all_ids "group1") store0
    = Ok perms /\
    [Some "uid_alice"] = students_sharing perms all_ids.
Proof.
  destruct (progress_asked_only_for_sharing services store0 as_carol
              ["alice"; "bob"] "group1" [Some "uid_alice"] ["story1"])
    as (all_ids & perms & Hids & Hperms & Heq & _).
  - left. apply list_elem_of_In. vm_compute.
    right. right. right. left. reflexivity.
  - exists all_ids, perms. auto.
Defined.

Lemma forgetful_answers_hold :
  progress_services_answer forgetful_services store0 ["alice"] "group1"
    forgetful_answers.
Proof. repeat split; vm_compute; reflexivity. Qed.

Lemma progress_failures_witness :
  result (run forgetful_services
            (LearnerGroupStudentProgressHandler_get as_carol ["alice"]
               "group1") store0) = Err IndexError /\
  exists i uid,
    resolved_ids forgetful_answers !! i = Some uid /\
    ((permissions forgetful_answers !! i = None /\ IndexError = IndexError) \/
     (["alice"] !! i = None /\ IndexError = IndexError) \/
     (permissions forgetful_answers !! i = Some true /\
      (stories forgetful_answers !! uid = None \/
       pages forgetful_answers !! uid = None) /\
      IndexError = key_error uid)).
Proof.
  assert (Hres : result (run forgetful_services
                           (LearnerGroupStudentProgressHandler_get as_carol
                              ["alice"] "group1") store0) = Err IndexError)
    by (vm_compute; reflexivity).
  split; [exact Hres|].
  exact (progress_failures forgetful_services store0 as_carol ["alice"]
           "group1" forgetful_answers IndexError forgetful_answers_hold Hres).
Defined.

Lemma search_shows_picture_only_if_valid_witness :
  exists error,
    ask services (can_user_be_invited "uid_dave" "dave" "group1") store0
    = Ok (true, error).
Proof.
  destruct (proj1 (search_shows_picture_only_if_valid services
                     PyStr.ascii_lower store0 as_carol "dave" "group1")
              {| SearchDict.username := "dave";
                 SearchDict.profile_picture_data_url := "data:dave";
                 SearchDict.error := EmptyString |})
    as (us & error & Hus & Hinv & _).
  - vm_compute. reflexivity.
  - discriminate.
  - vm_compute in Hus. injection Hus as <-. exists error. exact Hinv.
Defined.

End ExtraRuns.

(** ** The facilitator dashboard *)

Section DashboardProofs.

Context {U : Type}.
Context (groups_of : user_id -> Result (list LearnerGroup.t)).
Context (usernames_of : user_id -> Result U).

Lemma dashboard_loop_ok (self : Handler.t) (names : U) :
  usernames_of (Handler.user_id self) = Ok names ->
  forall learner_groups data,
    dashboard_loop usernames_of self learner_groups data
    = Ok (data ++
          map (fun g =>
                 {| GroupSummary.id := LearnerGroup.group_id g;
                    GroupSummary.title := LearnerGroup.title g;
                    GroupSummary.description := LearnerGroup.description g;
                    GroupSummary.facilitator_usernames := names;
                    GroupSummary.students_count :=
                      length (LearnerGroup.student_user_ids g) |})
              learner_groups).
Proof.
  intros Hn. induction learner_groups as [|g rest IH]; intros data.
  - cbn. rewrite app_nil_r. reflexivity.
  - cbn [dashboard_loop]. rewrite Hn. cbn [result_bind].
    rewrite IH, <- app_assoc. reflexivity.
Qed.

(** X15.  The facilitator dashboard renders one summary per group the
    fetcher returned, in the fetcher's order, each with the group's id,
    title and description, the count of its students, and the usernames
    answer for the caller.  With no group it renders the empty list
    without needing the usernames; with at least one group an error of
    the usernames call is the handler's. *)
Theorem dashboard_lists_every_group
    (self : Handler.t) (learner_groups : list LearnerGroup.t) :
  groups_of (Handler.user_id self) = Ok learner_groups ->
  (forall names,
     usernames_of (Handler.user_id self) = Ok names ->
     FacilitatorDashboardHandler_get groups_of usernames_of self
     = Ok (map (fun g =>
                  {| GroupSummary.id := LearnerGroup.group_id g;
                     GroupSummary.title := LearnerGroup.title g;
                     GroupSummary.description := LearnerGroup.description g;
                     GroupSummary.facilitator_usernames := names;
                     GroupSummary.students_count :=
                       length (LearnerGroup.student_user_ids g) |})
               learner_groups)) /\
  (learner_groups = [] ->
   FacilitatorDashboardHandler_get groups_of usernames_of self = Ok []) /\
  (forall e,
     learner_groups <> [] ->
     usernames_of (Handler.user_id self) = Err e ->
     FacilitatorDashboardHandler_get groups_of usernames_of self = Err e).
Proof.
  intros Hg. unfold FacilitatorDashboardHandler_get. rewrite Hg.
  cbn [result_bind]. split; [|split].
  - intros names Hn. rewrite (dashboard_loop_ok self names Hn). reflexivity.
  - intros ->. reflexivity.
  - intros e Hne He. destruct learner_groups as [|g rest]; [congruence|].
    cbn [dashboard_loop]. rewrite He. reflexivity.
Qed.

End DashboardProofs.

Lemma dashboard_lists_every_group_witness :
  map GroupSummary.students_count <$>
    result_to_option
      (FacilitatorDashboardHandler_get
         (fun _ => Ok [Reference.group1])
         (fun _ => Ok [Some "carol"]) Reference.as_carol)
  = Some [2] /\
  FacilitatorDashboardHandler_get
    (fun _ => Ok [])
    (fun _ => @Err (list (option string)) (ServiceException "unavailable"))
    Reference.as_carol
  = Ok [].
Proof.
  split.
  - rewrite (proj1 (dashboard_lists_every_group
                      (fun _ => Ok [Reference.group1])
                      (fun _ => Ok [Some "carol"])
                      Reference.as_carol [Reference.group1] eq_refl)
               [Some "carol"] eq_refl).
    reflexivity.
  - apply (proj1 (proj2 (dashboard_lists_every_group
                           (fun _ => Ok [])
                           (fun _ => Err (ServiceException "unavailable"))
                           Reference.as_carol [] eq_refl))).
    reflexivity.
Defined.
